(** * Diagnostic scripts of sharepoint-ai-search-sync

    A shallow embedding of [check_indexer_warnings.py] (the Indexer Status
    Reporter) and [check_index.py] (the Index Inspector), and the properties
    of their reports.

    Conventions of the embedding:

    - a parsed JSON body is a value of [json]; a Python [dict] is an
      association list in insertion order (keys of a parsed object are
      distinct, so the first binding of a key is its only one);
    - a Python [str] is a [string], one [ascii] per character (code points
      below 256); the two pictographs printed by the vector probe are held
      as the bytes of the source file;
    - a JSON real number is carried by the text Python's [repr] gives it,
      which is all the scripts ever do with one (print it, test it for zero);
    - a run of a script is the list of its observable events, in order (the
      lines given to [print], the HTTP requests sent), with its outcome: a
      returned value or the exception that ended it;
    - the HTTP service is an oracle from requests to responses. *)

From Stdlib Require Import String Ascii List ZArith Lia Bool Arith DecimalString.
Import ListNotations.
Local Open Scope list_scope.
Local Open Scope string_scope.

(** ** Parsed JSON values *)

#[local] Set Warnings "-register-all".

Inductive json : Type :=
| JNull
| JBool (b : bool)
| JInt (z : Z)
| JFloat (repr : string)
| JStr (s : string)
| JArr (items : list json)
| JObj (fields : list (string * json)).

Definition dict := list (string * json).

(** ** Python primitives used by the scripts *)

Inductive exn : Type :=
| AttributeError
| TypeError
| KeyError
| IndexError
| JSONDecodeError
| RequestException
| SystemExit (code : Z).

Inductive outcome (A : Type) : Type :=
| Returned (a : A)
| Raised (e : exn).

Arguments Returned {A} a.
Arguments Raised {A} e.

Definition nl : string := String (ascii_of_nat 10) EmptyString.

(** [str(n)] of an integer. *)
Definition dec (z : Z) : string := NilZero.string_of_int (Z.to_int z).

Definition dec_nat (n : nat) : string := dec (Z.of_nat n).

(** [k in d] and [d[k]] on a dict. *)
Fixpoint dict_get (d : dict) (k : string) : option json :=
  match d with
  | [] => None
  | (k', v) :: d' => if String.eqb k k' then Some v else dict_get d' k
  end.

(** [d.get(k, default)] on a dict. *)
Definition get_or (d : dict) (k : string) (default : json) : json :=
  match dict_get d k with
  | Some v => v
  | None => default
  end.

(** [x.get(k, default)]: only a dict has the method. *)
Definition py_get (x : json) (k : string) (default : json) : outcome json :=
  match x with
  | JObj d => Returned (get_or d k default)
  | _ => Raised AttributeError
  end.

(** Truth value of [x] in [if x:] and [x or y]. *)
Definition truthy (x : json) : bool :=
  match x with
  | JNull => false
  | JBool b => b
  | JInt z => negb (z =? 0)%Z
  | JFloat r => negb (String.eqb r "0.0" || String.eqb r "-0.0")
  | JStr s => negb (String.eqb s "")
  | JArr [] => false
  | JArr (_ :: _) => true
  | JObj [] => false
  | JObj (_ :: _) => true
  end.

(** [len(x)]. *)
Definition py_len (x : json) : outcome nat :=
  match x with
  | JStr s => Returned (String.length s)
  | JArr l => Returned (List.length l)
  | JObj d => Returned (List.length d)
  | _ => Raised TypeError
  end.

(** [x[:n]]. A dict refuses a slice as a key ([TypeError] up to Python 3.11,
    [KeyError] from 3.12 on; the embedding keeps the former). *)
Definition py_slice (x : json) (n : nat) : outcome json :=
  match x with
  | JStr s => Returned (JStr (substring 0 n s))
  | JArr l => Returned (JArr (firstn n l))
  | _ => Raised TypeError
  end.

(** [x[0]]. *)
Definition py_first (x : json) : outcome json :=
  match x with
  | JStr EmptyString => Raised IndexError
  | JStr (String c _) => Returned (JStr (String c EmptyString))
  | JArr [] => Raised IndexError
  | JArr (v :: _) => Returned v
  | JObj _ => Raised KeyError
  | _ => Raised TypeError
  end.

Fixpoint chars (s : string) : list json :=
  match s with
  | EmptyString => []
  | String c s' => JStr (String c EmptyString) :: chars s'
  end.

(** The items a [for] loop (or [enumerate]) draws from [x]. *)
Definition py_iter (x : json) : outcome (list json) :=
  match x with
  | JStr s => Returned (chars s)
  | JArr l => Returned l
  | JObj d => Returned (map (fun kv => JStr (fst kv)) d)
  | _ => Raised TypeError
  end.

(** *** [repr] and [str] *)

Definition hex_digit (n : nat) : ascii :=
  if Nat.ltb n 10 then ascii_of_nat (48 + n) else ascii_of_nat (87 + n).

Definition printable (c : ascii) : bool :=
  let n := nat_of_ascii c in
  (Nat.leb 32 n && Nat.ltb n 127) || (Nat.leb 161 n && negb (Nat.eqb n 173)).

Definition quote1 : ascii := ascii_of_nat 39.
Definition quote2 : ascii := ascii_of_nat 34.
Definition backslash : ascii := ascii_of_nat 92.

Fixpoint has_char (c : ascii) (s : string) : bool :=
  match s with
  | EmptyString => false
  | String c' s' => Ascii.eqb c c' || has_char c s'
  end.

Definition repr_char (q c : ascii) : string :=
  let n := nat_of_ascii c in
  if Ascii.eqb c q || Ascii.eqb c backslash then String backslash (String c EmptyString)
  else if Nat.eqb n 9 then String backslash "t"
  else if Nat.eqb n 10 then String backslash "n"
  else if Nat.eqb n 13 then String backslash "r"
  else if printable c then String c EmptyString
  else String backslash
         (String "x" (String (hex_digit (n / 16)) (String (hex_digit (n mod 16)) EmptyString))).

Fixpoint repr_chars (q : ascii) (s : string) : string :=
  match s with
  | EmptyString => EmptyString
  | String c s' => repr_char q c ++ repr_chars q s'
  end.

(** [repr] of a str: single quotes, unless the text has a single quote and
    no double quote. *)
Definition repr_str (s : string) : string :=
  let q := if has_char quote1 s && negb (has_char quote2 s) then quote2 else quote1 in
  String q (repr_chars q s ++ String q EmptyString).

Fixpoint join (sep : string) (l : list string) : string :=
  match l with
  | [] => EmptyString
  | [x] => x
  | x :: l' => x ++ sep ++ join sep l'
  end.

Fixpoint py_repr (x : json) : string :=
  match x with
  | JNull => "None"
  | JBool true => "True"
  | JBool false => "False"
  | JInt z => dec z
  | JFloat r => r
  | JStr s => repr_str s
  | JArr l => "[" ++ join ", " (map py_repr l) ++ "]"
  | JObj d => "{" ++ join ", " (map (fun kv => repr_str (fst kv) ++ ": " ++ py_repr (snd kv)) d) ++ "}"
  end.

(** [str(x)], which is also what an f-string field [{x}] prints. *)
Definition py_str (x : json) : string :=
  match x with
  | JStr s => s
  | _ => py_repr x
  end.

(** An environment variable or setting: a str, or [None]. *)
Definition fmt_setting (v : option string) : string :=
  match v with
  | Some s => s
  | None => "None"
  end.

(** ** HTTP *)

Inductive http_method : Type := GET | POST.

Record request : Type := {
  req_method : http_method;
  req_url : string;
  req_headers : list (string * option string);
  req_json : option json
}.

(** What the scripts read of a response: [status_code], [text], and the
    result of [json()], absent when the body is not JSON. *)
Record response : Type := {
  status_code : Z;
  text : string;
  json_body : option json
}.

(** ** Runs: events and outcome *)

Inductive event : Type :=
| Printed (line : string)
| Sent (req : request).

Definition M (A : Type) : Type := (list event * outcome A)%type.

Definition ret {A} (a : A) : M A := ([], Returned a).

Definition bind {A B} (m : M A) (k : A -> M B) : M B :=
  match m with
  | (t, Returned a) => let (t', r) := k a in ((t ++ t')%list, r)
  | (t, Raised e) => (t, Raised e)
  end.

Notation "x <- c1 ;; c2" := (bind c1 (fun x => c2))
  (at level 61, c1 at next level, right associativity).
Notation "c1 ;; c2" := (bind c1 (fun _ => c2))
  (at level 61, right associativity).

Definition print (line : string) : M unit := ([Printed line], Returned tt).

Definition raise {A} (e : exn) : M A := ([], Raised e).

(** A pure primitive used inside a run. *)
Definition call {A} (r : outcome A) : M A := ([], r).

Definition when (b : bool) (m : M unit) : M unit := if b then m else ret tt.

(** [enumerate(items, start)]. *)
Fixpoint enumerate {A} (start : nat) (items : list A) : list (nat * A) :=
  match items with
  | [] => []
  | x :: items' => (start, x) :: enumerate (S start) items'
  end.

(** [for x in items: body]. *)
Fixpoint for_each {A} (items : list A) (body : A -> M unit) : M unit :=
  match items with
  | [] => ret tt
  | x :: items' => body x ;; for_each items' body
  end.

(** [requests.get] / [requests.post] against the service. *)
Definition send (http : request -> outcome response) (req : request) : M response :=
  ([Sent req], http req).

(** [response.json()]. *)
Definition response_json (r : response) : M json :=
  match json_body r with
  | Some v => ret v
  | None => raise JSONDecodeError
  end.

(** Exit status of the interpreter after a script run. *)
Definition exit_status {A} (r : outcome A) : Z :=
  match r with
  | Returned _ => 0
  | Raised (SystemExit code) => code
  | Raised _ => 1
  end.

(** ** check_indexer_warnings.py *)

Module check_indexer_warnings.
Section Script.

(** [config.search_endpoint] and [config.search_api_key] of the settings
    module, and the search service. *)
Variable search_endpoint search_api_key : option string.
Variable http : request -> outcome response.

Definition headers : list (string * option string) :=
  [("Content-Type", Some "application/json"); ("api-key", search_api_key)].

Definition api_version : string := "2024-07-01".

Definition url (indexer_name : string) : string :=
  fmt_setting search_endpoint ++ "/indexers/" ++ indexer_name
    ++ "/status?api-version=" ++ api_version.

Definition status_request (indexer_name : string) : request :=
  {| req_method := GET; req_url := url indexer_name;
     req_headers := headers; req_json := None |}.

(** Body of the loop over [errors[:10]]. *)
Definition error_entry (ix : nat * json) : M unit :=
  let (i, error) := ix in
  m <- call (py_get error "errorMessage" (JStr "Unknown error")) ;;
  print ("    " ++ dec_nat i ++ ". " ++ py_str m) ;;
  k <- call (py_get error "key" (JStr "N/A")) ;;
  print ("       Key: " ++ py_str k) ;;
  n <- call (py_get error "name" (JStr "N/A")) ;;
  print ("       Name: " ++ py_str n).

(** Body of the loop over [warnings[:20]]. *)
Definition warning_entry (ix : nat * json) : M unit :=
  let (i, warning) := ix in
  m <- call (py_get warning "message" (JStr "Unknown warning")) ;;
  print ("    " ++ dec_nat i ++ ". " ++ py_str m) ;;
  k <- call (py_get warning "key" (JStr "N/A")) ;;
  print ("       Key: " ++ py_str k) ;;
  n <- call (py_get warning "name" (JStr "N/A")) ;;
  print ("       Name: " ++ py_str n) ;;
  d <- call (py_get warning "details" (JStr "N/A")) ;;
  print ("       Details: " ++ py_str d) ;;
  print "".

(** Body of the loop over the history entry's [warnings[:5]]. *)
Definition recent_warning_entry (ix : nat * json) : M unit :=
  let (i, warning) := ix in
  m <- call (py_get warning "message" (JStr "Unknown")) ;;
  print ("  " ++ dec_nat i ++ ". " ++ py_str m).

(** Lines 39-46: the errors of the last run. *)
Definition errors_block (last_result : json) : M unit :=
  errors <- call (py_get last_result "errors" (JArr [])) ;;
  when (truthy errors) (
    n <- call (py_len errors) ;;
    print (nl ++ "  ERRORS (" ++ dec_nat n ++ "):") ;;
    shown <- call (py_slice errors 10) ;;
    items <- call (py_iter shown) ;;
    for_each (enumerate 1 items) error_entry).

(** Lines 48-57: the warnings of the last run. *)
Definition warnings_block (last_result : json) : M unit :=
  warnings <- call (py_get last_result "warnings" (JArr [])) ;;
  when (truthy warnings) (
    n <- call (py_len warnings) ;;
    print (nl ++ "  WARNINGS (" ++ dec_nat n ++ "):") ;;
    shown <- call (py_slice warnings 20) ;;
    items <- call (py_iter shown) ;;
    for_each (enumerate 1 items) warning_entry).

(** Lines 32-57: the last run. *)
Definition last_run_section (status_data : json) : M unit :=
  last_result <- call (py_get status_data "lastResult" (JObj [])) ;;
  when (truthy last_result) (
    print (nl ++ "Last Run:") ;;
    s <- call (py_get last_result "status" JNull) ;;
    print ("  Status: " ++ py_str s) ;;
    p <- call (py_get last_result "itemsProcessed" (JInt 0)) ;;
    print ("  Items Processed: " ++ py_str p) ;;
    f <- call (py_get last_result "itemsFailed" (JInt 0)) ;;
    print ("  Items Failed: " ++ py_str f) ;;
    errors_block last_result ;;
    warnings_block last_result).

(** Lines 59-69: the execution history. *)
Definition history_section (status_data : json) : M unit :=
  history <- call (py_get status_data "executionHistory" (JArr [])) ;;
  when (truthy history) (
    n <- call (py_len history) ;;
    when (Nat.ltb 1 n) (
      print (nl ++ "=== Recent Execution ===") ;;
      recent <- call (py_first history) ;;
      s <- call (py_get recent "status" JNull) ;;
      print ("Status: " ++ py_str s) ;;
      warnings <- call (py_get recent "warnings" (JArr [])) ;;
      when (truthy warnings) (
        w <- call (py_len warnings) ;;
        print ("Warnings in this run: " ++ dec_nat w) ;;
        shown <- call (py_slice warnings 5) ;;
        items <- call (py_iter shown) ;;
        for_each (enumerate 1 items) recent_warning_entry))).

(** The function returns the parsed payload, or [None]. *)
Definition get_indexer_status_details (indexer_name : string) : M (option json) :=
  response <- send http (status_request indexer_name) ;;
  if (status_code response =? 200)%Z then
    status_data <- response_json response ;;
    print (nl ++ "=== Indexer: " ++ indexer_name ++ " ===") ;;
    s <- call (py_get status_data "status" JNull) ;;
    print ("Status: " ++ py_str s) ;;
    last_run_section status_data ;;
    history_section status_data ;;
    ret (Some status_data)
  else
    print ("Error: " ++ dec (status_code response)) ;;
    print (text response) ;;
    ret None.

(** The [__main__] block: [argv] is [sys.argv]. *)
Definition main (argv : list string) : M (option json) :=
  let indexer_name :=
    match argv with
    | _ :: name :: _ => name
    | _ => "pp-dev-navi-bki-code-ix"
    end in
  get_indexer_status_details indexer_name.

End Script.
End check_indexer_warnings.

(** ** check_index.py *)

Module check_index.
Section Script.

(** [os.getenv('SEARCH_ENDPOINT')], [os.getenv('SEARCH_API_KEY')], and the
    search service. *)
Variable SEARCH_ENDPOINT SEARCH_API_KEY : option string.
Variable http : request -> outcome response.

Definition INDEX_NAME : string := "idx-score-operatorsupport".

Definition headers : list (string * option string) :=
  [("api-key", SEARCH_API_KEY); ("Content-Type", Some "application/json")].

Definition stats_url : string :=
  fmt_setting SEARCH_ENDPOINT ++ "/indexes/" ++ INDEX_NAME ++ "/stats?api-version=2024-07-01".

Definition search_url : string :=
  fmt_setting SEARCH_ENDPOINT ++ "/indexes/" ++ INDEX_NAME
    ++ "/docs/search?api-version=2024-07-01".

Definition search_body : json :=
  JObj [("search", JStr "*"); ("top", JInt 3)].

Definition vector_search_body : json :=
  JObj [("vectorQueries",
         JArr [JObj [("kind", JStr "text");
                     ("text", JStr "NCEMS integration requirements");
                     ("fields", JStr "content_vector");
                     ("k", JInt 3)]]);
        ("select", JStr "title,source_url")].

Definition stats_request : request :=
  {| req_method := GET; req_url := stats_url;
     req_headers := headers; req_json := None |}.

Definition search_request : request :=
  {| req_method := POST; req_url := search_url;
     req_headers := headers; req_json := Some search_body |}.

Definition vector_request : request :=
  {| req_method := POST; req_url := search_url;
     req_headers := headers; req_json := Some vector_search_body |}.

(** [doc.keys()] and [doc.items()]: only a dict has the methods. *)
Definition py_keys (x : json) : outcome (list string) :=
  match x with
  | JObj d => Returned (map fst d)
  | _ => Raised AttributeError
  end.

Definition py_items (x : json) : outcome (list (string * json)) :=
  match x with
  | JObj d => Returned d
  | _ => Raised AttributeError
  end.

(** Lines 58-63: the text shown for a field value. *)
Definition display_value (value : json) : string :=
  match value with
  | JStr s =>
      if Nat.ltb 200 (String.length s) then substring 0 200 s ++ "..." else s
  | JArr ((first :: _) as l) =>
      "[" ++ dec_nat (List.length l) ++ " items] " ++ substring 0 100 (py_str first) ++ "..."
  | _ => substring 0 200 (py_str value)
  end.

(** Body of the loop over [doc.items()]. *)
Definition field_entry (kv : string * json) : M unit :=
  let (key, value) := kv in
  if prefix "@" key then ret tt
  else print ("  " ++ key ++ ": " ++ display_value value).

(** Body of the loop over the sample documents. *)
Definition document_entry (ix : nat * json) : M unit :=
  let (i, doc) := ix in
  print ("Document " ++ dec_nat i ++ ":") ;;
  keys <- call (py_keys doc) ;;
  print ("  Available fields: " ++ py_repr (JArr (map JStr keys))) ;;
  print "" ;;
  items <- call (py_items doc) ;;
  for_each items field_entry ;;
  print "".

(** Body of the loop over the vector results. *)
Definition result_entry (ix : nat * json) : M unit :=
  let (i, doc) := ix in
  print ("Result " ++ dec_nat i ++ ":") ;;
  s <- call (py_get doc "@search.score" (JStr "N/A")) ;;
  print ("  Score: " ++ py_str s) ;;
  t <- call (py_get doc "title" (JStr "N/A")) ;;
  print ("  Title: " ++ py_str t) ;;
  u <- call (py_get doc "source_url" (JStr "N/A")) ;;
  print ("  Source URL: " ++ py_str u) ;;
  print "".

(** Line 48: [results.get('@odata.count') or len(results.get('value', []))]. *)
Definition doc_count (results : json) : M json :=
  count <- call (py_get results "@odata.count" JNull) ;;
  if truthy count then ret count
  else
    value <- call (py_get results "value" (JArr [])) ;;
    n <- call (py_len value) ;;
    ret (JInt (Z.of_nat n)).

(** Lines 20-34: index statistics. *)
Definition stats_step : M unit :=
  print ("=== Index Statistics for " ++ INDEX_NAME ++ " ===" ++ nl) ;;
  stats_response <- send http stats_request ;;
  if (status_code stats_response =? 200)%Z then
    stats <- response_json stats_response ;;
    c <- call (py_get stats "documentCount" (JInt 0)) ;;
    print ("Document Count: " ++ py_str c) ;;
    s <- call (py_get stats "storageSize" (JInt 0)) ;;
    print ("Storage Size: " ++ py_str s ++ " bytes") ;;
    v <- call (py_get stats "vectorIndexSize" (JInt 0)) ;;
    print ("Vector Index Size: " ++ py_str v ++ " bytes") ;;
    print ""
  else
    print ("Error getting stats: " ++ dec (status_code stats_response)) ;;
    print (text stats_response) ;;
    raise (SystemExit 1).

(** Lines 36-68: sample documents. *)
Definition sample_step : M unit :=
  print ("=== Sample Documents ===" ++ nl) ;;
  search_response <- send http search_request ;;
  if (status_code search_response =? 200)%Z then
    results <- response_json search_response ;;
    n <- doc_count results ;;
    print ("Total documents in search: " ++ py_str n ++ nl) ;;
    value <- call (py_get results "value" (JArr [])) ;;
    docs <- call (py_iter value) ;;
    for_each (enumerate 1 docs) document_entry
  else
    print ("Error searching: " ++ dec (status_code search_response)) ;;
    print (text search_response).

(** Lines 70-100: vector search. *)
Definition vector_step : M unit :=
  print (nl ++ "=== Vector Search Test ===" ++ nl) ;;
  vector_response <- send http vector_request ;;
  if (status_code vector_response =? 200)%Z then
    results <- response_json vector_response ;;
    value <- call (py_get results "value" (JArr [])) ;;
    n <- call (py_len value) ;;
    print ("Vector search returned " ++ dec_nat n ++ " results" ++ nl) ;;
    value' <- call (py_get results "value" (JArr [])) ;;
    docs <- call (py_iter value') ;;
    for_each (enumerate 1 docs) result_entry ;;
    print "✅ Vector embeddings are working correctly!"
  else
    print ("❌ Error with vector search: " ++ dec (status_code vector_response)) ;;
    print (text vector_response).

(** The script, top to bottom. *)
Definition script : M unit :=
  stats_step ;;
  sample_step ;;
  vector_step.

End Script.
End check_index.

(** ** The report, as the specification words it *)

(** A field of an entry as shown: its value, or the default when absent. *)
Definition field_or (entry : dict) (k default : string) : string :=
  match dict_get entry k with
  | Some v => py_str v
  | None => default
  end.

(** The field [k] of [d] holds the sequence of entries [entries]; an absent
    field counts as the empty sequence. *)
Definition sequence_field (d : dict) (k : string) (entries : list dict) : Prop :=
  dict_get d k = Some (JArr (map JObj entries))
  \/ (dict_get d k = None /\ entries = []).

(** A block with a counted header: nothing for an empty sequence, else the
    header carrying [count] and then the [listed] lines. *)
Definition counted (header : nat -> string) (count : nat) (listed : list event) : list event :=
  match count with
  | O => []
  | S _ => Printed (header count) :: listed
  end.

Definition errors_header (count : nat) : string :=
  nl ++ "  ERRORS (" ++ dec_nat count ++ "):".

Definition warnings_header (count : nat) : string :=
  nl ++ "  WARNINGS (" ++ dec_nat count ++ "):".

Definition recent_warnings_header (count : nat) : string :=
  "Warnings in this run: " ++ dec_nat count.

(** An error of the last run, read through the field [message_key]. *)
Definition shown_error_by (message_key : string) (ie : nat * dict) : list event :=
  let (i, e) := ie in
  [Printed ("    " ++ dec_nat i ++ ". " ++ field_or e message_key "Unknown error");
   Printed ("       Key: " ++ field_or e "key" "N/A");
   Printed ("       Name: " ++ field_or e "name" "N/A")].

(** A warning of the last run, with its four sub-fields and a blank line. *)
Definition shown_warning (iw : nat * dict) : list event :=
  let (i, w) := iw in
  [Printed ("    " ++ dec_nat i ++ ". " ++ field_or w "message" "Unknown warning");
   Printed ("       Key: " ++ field_or w "key" "N/A");
   Printed ("       Name: " ++ field_or w "name" "N/A");
   Printed ("       Details: " ++ field_or w "details" "N/A");
   Printed ""].

(** A warning of the history entry: its message only. *)
Definition shown_recent_warning (iw : nat * dict) : list event :=
  let (i, w) := iw in
  [Printed ("  " ++ dec_nat i ++ ". " ++ field_or w "message" "Unknown")].

(** The opening of the status report: the request, the banner, the overall
    status. *)
Definition report_head (req : request) (indexer_name : string) (o : dict) : list event :=
  [Sent req;
   Printed (nl ++ "=== Indexer: " ++ indexer_name ++ " ===");
   Printed ("Status: " ++ py_str (get_or o "status" JNull))].

(** The opening of the Last Run section. *)
Definition last_run_head (lr : dict) : list event :=
  [Printed (nl ++ "Last Run:");
   Printed ("  Status: " ++ py_str (get_or lr "status" JNull));
   Printed ("  Items Processed: " ++ field_or lr "itemsProcessed" "0");
   Printed ("  Items Failed: " ++ field_or lr "itemsFailed" "0")].

(** The Recent Execution section opens with its banner and the status of
    [entry]. *)
Definition recent_execution_of (entry : dict) (trace : list event) : Prop :=
  exists before after,
    trace = (before
             ++ Printed (nl ++ "=== Recent Execution ===")
             :: Printed ("Status: " ++ py_str (get_or entry "status" JNull))
             :: after)%list.

(** *** The data model of a status payload (specification, section 3) *)

Definition is_object (v : json) : bool :=
  match v with
  | JObj _ => true
  | _ => false
  end.

(** An optional sequence of entries. *)
Definition entries_ok (v : option json) : bool :=
  match v with
  | None => true
  | Some (JArr l) => forallb is_object l
  | Some _ => false
  end.

(** An IndexerRunResult. *)
Definition run_result_ok (v : json) : bool :=
  match v with
  | JObj r => entries_ok (dict_get r "errors") && entries_ok (dict_get r "warnings")
  | _ => false
  end.

(** The execution history: absent, or a sequence of run results. *)
Definition history_ok (o : dict) : bool :=
  match dict_get o "executionHistory" with
  | None => true
  | Some (JArr h) => forallb run_result_ok h
  | Some _ => false
  end.

(** The status payload. *)
Definition status_payload_ok (p : json) : bool :=
  match p with
  | JObj o =>
      match dict_get o "lastResult" with
      | None => true
      | Some lr => run_result_ok lr
      end && history_ok o
  | _ => false
  end.

(** ** Sample payloads and services *)

Definition ok_response (body : json) : response :=
  {| status_code := 200; text := "{...}"; json_body := Some body |}.

Definition failure_response (code : Z) (body_text : string) : response :=
  {| status_code := code; text := body_text; json_body := None |}.

Definition always (r : response) : request -> outcome response :=
  fun _ => Returned r.

Definition sample_endpoint : option string := Some "https://search.example".
Definition sample_key : option string := Some "key".

(** [n] warnings, numbered from [start]. *)
Fixpoint sample_warnings (start n : nat) : list dict :=
  match n with
  | O => []
  | S n' => [("message", JStr ("warning " ++ dec_nat start)); ("key", JStr "doc1")]
              :: sample_warnings (S start) n'
  end.

Definition two_run_history : list json :=
  [JObj [("status", JStr "success")];
   JObj [("status", JStr "transientFailure")]].

Definition payload_two_runs : dict :=
  [("status", JStr "running"); ("executionHistory", JArr two_run_history)].

Definition payload_one_run : dict :=
  [("status", JStr "running");
   ("executionHistory", JArr [JObj [("status", JStr "success")]])].

Definition run_with_recent_warnings : dict :=
  [("status", JStr "success");
   ("warnings", JArr (map JObj (sample_warnings 1 7)))].

Definition payload_recent_warnings : dict :=
  [("status", JStr "running");
   ("executionHistory",
    JArr [JObj run_with_recent_warnings;
          JObj [("status", JStr "transientFailure")]])].

Definition payload_error_message : dict :=
  [("lastResult", JObj [("errors", JArr [JObj [("message", JStr "X")]])])].

Definition sample_errors : list dict :=
  [[("errorMessage", JStr "Document is too large"); ("key", JStr "doc7")];
   [("name", JStr "Enrichment.split")]].

Definition run_with_errors : dict :=
  [("status", JStr "transientFailure");
   ("errors", JArr (map JObj sample_errors))].

Definition payload_errors : dict :=
  [("status", JStr "running"); ("lastResult", JObj run_with_errors)].

Definition run_with_warnings (n : nat) : dict :=
  [("status", JStr "success");
   ("itemsProcessed", JInt 40);
   ("warnings", JArr (map JObj (sample_warnings 1 n)))].

Definition payload_warnings (n : nat) : dict :=
  [("status", JStr "running"); ("lastResult", JObj (run_with_warnings n))].

Definition run_with_errors_and_warnings : dict :=
  [("status", JStr "success");
   ("errors", JArr (map JObj sample_errors));
   ("warnings", JArr (map JObj (sample_warnings 1 25)))].

Definition payload_errors_and_warnings : dict :=
  [("status", JStr "running");
   ("lastResult", JObj run_with_errors_and_warnings)].

Definition payload_no_last_run : dict :=
  [("status", JStr "running"); ("executionHistory", JArr two_run_history)].

Definition payload_empty_last_run : dict :=
  [("status", JStr "running"); ("lastResult", JObj [])].

Definition sample_stats : dict :=
  [("documentCount", JInt 42); ("storageSize", JInt 1000); ("vectorIndexSize", JInt 200)].

Definition partial_stats : dict :=
  [("documentCount", JInt 42)].

Definition results_zero_count : dict :=
  [("@odata.count", JInt 0); ("value", JArr [JObj [("id", JStr "1")]])].

Definition results_counted : dict :=
  [("@odata.count", JInt 57); ("value", JArr [JObj [("id", JStr "1")]])].

Definition results_uncounted : dict :=
  [("value", JArr [JObj [("id", JStr "1")]; JObj [("id", JStr "2")]])].

Fixpoint repeat_char (c : ascii) (n : nat) : string :=
  match n with
  | O => EmptyString
  | S n' => String c (repeat_char c n')
  end.

Definition sample_document : dict :=
  [("@search.score", JFloat "1.0");
   ("content", JStr (repeat_char "a" 250));
   ("title", JStr "Guide")].

(** A service of the Index Inspector answering each of its three requests
    in turn. *)
Definition inspector_service (stats search vector : response) (req : request)
    : outcome response :=
  match req_method req, req_json req with
  | GET, _ => Returned stats
  | POST, Some (JObj (("search", _) :: _)) => Returned search
  | POST, _ => Returned vector
  end.

(** ** Further report text and sample data *)

(** The requests of a run, in the order sent. *)
Definition requests_of (trace : list event) : list request :=
  flat_map (fun e => match e with Sent r => [r] | Printed _ => [] end) trace.

(** The texts given to [print] in a run, one per call, in order. *)
Definition printed_of (trace : list event) : list string :=
  flat_map (fun e => match e with Printed line => [line] | Sent _ => [] end) trace.

(** An empty last run, and a history of two runs whose first has 7
    warnings. *)
Definition payload_empty_last_run_with_history : dict :=
  [("status", JStr "running");
   ("lastResult", JObj []);
   ("executionHistory",
    JArr [JObj run_with_recent_warnings;
          JObj [("status", JStr "transientFailure")]])].

(** The line of a document field. *)
Definition shown_field (kv : string * json) : event :=
  Printed ("  " ++ fst kv ++ ": " ++ check_index.display_value (snd kv)).

(** A sample document: its number, its field names, a blank line, one line
    per field whose name does not start with the metadata marker, a blank
    line. *)
Definition shown_document (id : nat * dict) : list event :=
  let (i, fields) := id in
  (Printed ("Document " ++ dec_nat i ++ ":")
     :: Printed ("  Available fields: " ++ py_repr (JArr (map JStr (map fst fields))))
     :: Printed ""
     :: map shown_field (filter (fun kv => negb (prefix "@" (fst kv))) fields)
     ++ [Printed ""])%list.

(** A vector search result: its number, score, title, source URL, a blank
    line. *)
Definition shown_result (id : nat * dict) : list event :=
  let (i, d) := id in
  [Printed ("Result " ++ dec_nat i ++ ":");
   Printed ("  Score: " ++ field_or d "@search.score" "N/A");
   Printed ("  Title: " ++ field_or d "title" "N/A");
   Printed ("  Source URL: " ++ field_or d "source_url" "N/A");
   Printed ""].

Definition sample_results : list dict :=
  [[("@search.score", JFloat "0.83"); ("title", JStr "Integration guide");
    ("source_url", JStr "https://sp.example/guide")];
   [("title", JStr "Untitled")]].

Definition vector_results : dict :=
  [("value", JArr (map JObj sample_results))].

Definition sample_documents : list dict :=
  [sample_document; [("id", JStr "2"); ("tags", JArr [JStr "x"; JStr "y"])]].

Definition results_documents : dict :=
  [("@odata.count", JInt 57); ("value", JArr (map JObj sample_documents))].

(** A last run whose warnings hold a malformed entry at position [n]
    (counting from 0), after [n] well-formed ones. *)
Definition run_with_malformed_warning (n : nat) : dict :=
  [("status", JStr "success");
   ("warnings", JArr (map JObj (sample_warnings 1 n) ++ [JStr "corrupt"])%list)].

Definition not_json_response : response :=
  {| status_code := 200; text := "<html>gateway</html>"; json_body := None |}.

(** A run that sends no request. *)
Definition silent {A} (m : M A) : Prop := requests_of (fst m) = [].

Definition transport_failure : request -> outcome response :=
  fun _ => Raised RequestException.

(** * Properties *)

(** ** The run monad *)

Section MonadLaws.
Context {A B : Type}.

Lemma bind_call (a : A) (k : A -> M B) : bind (call (Returned a)) k = k a.
Proof. unfold bind, call. destruct (k a); reflexivity. Qed.

Lemma bind_ret (a : A) (k : A -> M B) : bind (ret a) k = k a.
Proof. unfold bind, ret. destruct (k a); reflexivity. Qed.

Lemma bind_raise (e : exn) (k : A -> M B) : bind (call (Raised e)) k = ([], Raised e).
Proof. reflexivity. Qed.

Lemma bind_print (s : string) (k : unit -> M B) :
  bind (print s) k = (Printed s :: fst (k tt), snd (k tt)).
Proof. unfold bind, print. destruct (k tt); reflexivity. Qed.

Lemma bind_returned (t : list event) (a : A) (k : A -> M B) :
  bind (t, Returned a) k = ((t ++ fst (k a))%list, snd (k a)).
Proof. unfold bind. destruct (k a); reflexivity. Qed.

Lemma bind_raised (t : list event) (e : exn) (k : A -> M B) :
  bind (t, Raised e) k = (t, Raised e).
Proof. reflexivity. Qed.

End MonadLaws.

Lemma bind_assoc {A B C} (m : M A) (k : A -> M B) (h : B -> M C) :
  bind (bind m k) h = bind m (fun a => bind (k a) h).
Proof.
  destruct m as [t [a|e]]; [|reflexivity].
  unfold bind at 2 3. destruct (k a) as [t' [b|e']].
  - unfold bind. destruct (h b) as [t'' r]. now rewrite app_assoc.
  - reflexivity.
Qed.

(** One step of a run: a primitive that returns, a printed line. *)
Ltac run_step :=
  first [ rewrite bind_call | rewrite bind_print | rewrite bind_ret | rewrite bind_raise ];
  cbv beta; cbn [fst snd when py_len py_slice py_iter py_first py_get].
Ltac run :=
  cbn [when py_len py_slice py_iter py_first py_get]; repeat run_step.

(** ** Loops *)

Lemma for_each_map_returns {A B} (f : A -> B) (body : B -> M unit)
    (lines : A -> list event) (l : list A) :
  (forall a, In a l -> body (f a) = (lines a, Returned tt)) ->
  for_each (map f l) body = (flat_map lines l, Returned tt).
Proof.
  induction l as [|a l IH]; intros H; simpl.
  - reflexivity.
  - rewrite (H a (or_introl eq_refl)), bind_returned, IH by (intros; apply H; now right).
    reflexivity.
Qed.

Lemma for_each_returns {A} (body : A -> M unit) (lines : A -> list event) (l : list A) :
  (forall a, In a l -> body a = (lines a, Returned tt)) ->
  for_each l body = (flat_map lines l, Returned tt).
Proof.
  intros H. rewrite <- (map_id l) at 1. now apply for_each_map_returns.
Qed.

Lemma enumerate_map {A B} (f : A -> B) (l : list A) (i : nat) :
  enumerate i (map f l) = map (fun ix => (fst ix, f (snd ix))) (enumerate i l).
Proof. revert i; induction l; intros; simpl; [|rewrite IHl]; reflexivity. Qed.

Lemma enumerate_length {A} (l : list A) (i : nat) :
  List.length (enumerate i l) = List.length l.
Proof. revert i; induction l; intros; simpl; [|rewrite IHl]; reflexivity. Qed.

(** ** Entries and fields *)

Lemma py_str_get_or (d : dict) (k default : string) :
  py_str (get_or d k (JStr default)) = field_or d k default.
Proof. unfold get_or, field_or. destruct (dict_get d k); reflexivity. Qed.

Lemma py_str_get_or_zero (d : dict) (k : string) :
  py_str (get_or d k (JInt 0)) = field_or d k "0".
Proof. unfold get_or, field_or. destruct (dict_get d k); reflexivity. Qed.

Lemma truthy_entries (es : list dict) :
  truthy (JArr (map JObj es)) = negb (Nat.eqb (List.length es) 0).
Proof. destruct es; reflexivity. Qed.

Lemma all_objects (l : list json) :
  forallb is_object l = true -> exists es, l = map JObj es.
Proof.
  induction l as [|v l IH]; simpl; intros H.
  - now exists [].
  - apply andb_true_iff in H. destruct H as [Hv Hl].
    destruct (IH Hl) as [es ->]. destruct v; try discriminate.
    now exists (fields :: es).
Qed.

Lemma entries_ok_sequence (d : dict) (k : string) :
  entries_ok (dict_get d k) = true -> exists es, sequence_field d k es.
Proof.
  unfold entries_ok, sequence_field. destruct (dict_get d k) as [v|].
  - destruct v; try discriminate. intros H.
    destruct (all_objects _ H) as [es ->]. exists es. now left.
  - intros _. exists []. now right.
Qed.

Lemma get_or_sequence (d : dict) (k : string) (es : list dict) :
  sequence_field d k es -> get_or d k (JArr []) = JArr (map JObj es).
Proof. unfold get_or. now intros [-> | [-> ->]]. Qed.

(** ** The status reporter, block by block *)

Section StatusBlocks.
Import check_indexer_warnings.

Lemma error_entry_obj (i : nat) (e : dict) :
  error_entry (i, JObj e) = (shown_error_by "errorMessage" (i, e), Returned tt).
Proof.
  unfold error_entry, shown_error_by. run. now rewrite !py_str_get_or.
Qed.

Lemma warning_entry_obj (i : nat) (w : dict) :
  warning_entry (i, JObj w) = (shown_warning (i, w), Returned tt).
Proof.
  unfold warning_entry, shown_warning. run. now rewrite !py_str_get_or.
Qed.

Lemma recent_warning_entry_obj (i : nat) (w : dict) :
  recent_warning_entry (i, JObj w) = (shown_recent_warning (i, w), Returned tt).
Proof.
  unfold recent_warning_entry, shown_recent_warning. run. now rewrite !py_str_get_or.
Qed.

(** A loop over the first [n] entries of a sequence of objects. *)
Lemma listing_returns (body : nat * json -> M unit) (lines : nat * dict -> list event)
    (n : nat) (es : list dict) :
  (forall i e, body (i, JObj e) = (lines (i, e), Returned tt)) ->
  for_each (enumerate 1 (firstn n (map JObj es))) body
  = (flat_map lines (enumerate 1 (firstn n es)), Returned tt).
Proof.
  intros H. rewrite firstn_map, enumerate_map.
  apply for_each_map_returns. intros [i e] _. apply H.
Qed.

Lemma errors_block_report (lr : dict) (es : list dict) :
  sequence_field lr "errors" es ->
  errors_block (JObj lr)
  = (counted errors_header (List.length es)
       (flat_map (shown_error_by "errorMessage") (enumerate 1 (firstn 10 es))),
     Returned tt).
Proof.
  intros H. unfold errors_block. cbn [py_get].
  rewrite (get_or_sequence _ _ _ H), bind_call, truthy_entries.
  destruct es as [|e es]; [reflexivity|].
  cbn [List.length Nat.eqb negb when counted]. run.
  rewrite length_map, (listing_returns _ (shown_error_by "errorMessage")) by apply error_entry_obj.
  reflexivity.
Qed.

Lemma warnings_block_report (lr : dict) (ws : list dict) :
  sequence_field lr "warnings" ws ->
  warnings_block (JObj lr)
  = (counted warnings_header (List.length ws)
       (flat_map shown_warning (enumerate 1 (firstn 20 ws))),
     Returned tt).
Proof.
  intros H. unfold warnings_block. cbn [py_get].
  rewrite (get_or_sequence _ _ _ H), bind_call, truthy_entries.
  destruct ws as [|w ws]; [reflexivity|].
  cbn [List.length Nat.eqb negb when counted]. run.
  rewrite length_map, (listing_returns _ shown_warning) by apply warning_entry_obj.
  reflexivity.
Qed.

Lemma last_run_section_skipped (o : dict) :
  dict_get o "lastResult" = None \/ dict_get o "lastResult" = Some (JObj []) ->
  last_run_section (JObj o) = ([], Returned tt).
Proof.
  unfold last_run_section. cbn [py_get]. unfold get_or.
  intros [H | H]; rewrite H; reflexivity.
Qed.

Lemma last_run_section_object (o lr : dict) :
  dict_get o "lastResult" = Some (JObj lr) -> lr <> [] ->
  last_run_section (JObj o)
  = ((last_run_head lr
      ++ fst (errors_block (JObj lr) ;; warnings_block (JObj lr)))%list,
     snd (errors_block (JObj lr) ;; warnings_block (JObj lr))).
Proof.
  intros H Hne. unfold last_run_section. cbn [py_get]. unfold get_or. rewrite H.
  assert (Ht : truthy (JObj lr) = true) by (destruct lr; [congruence | reflexivity]).
  run. rewrite Ht. run. now rewrite !py_str_get_or_zero.
Qed.

Lemma last_run_section_report (o lr : dict) (es ws : list dict) :
  dict_get o "lastResult" = Some (JObj lr) -> lr <> [] ->
  sequence_field lr "errors" es -> sequence_field lr "warnings" ws ->
  last_run_section (JObj o)
  = ((last_run_head lr
      ++ counted errors_header (List.length es)
           (flat_map (shown_error_by "errorMessage") (enumerate 1 (firstn 10 es)))
      ++ counted warnings_header (List.length ws)
           (flat_map shown_warning (enumerate 1 (firstn 20 ws))))%list,
     Returned tt).
Proof.
  intros H Hne He Hw. rewrite (last_run_section_object o lr H Hne).
  rewrite (errors_block_report lr es He), bind_returned.
  rewrite (warnings_block_report lr ws Hw). reflexivity.
Qed.

Lemma last_run_section_returns (o : dict) :
  match dict_get o "lastResult" with
  | None => true
  | Some lr => run_result_ok lr
  end = true ->
  snd (last_run_section (JObj o)) = Returned tt.
Proof.
  destruct (dict_get o "lastResult") as [lr|] eqn:H.
  - destruct lr as [| | | | | |lr]; try discriminate. cbn [run_result_ok].
    intros Hok. apply andb_true_iff in Hok. destruct Hok as [He Hw].
    destruct (entries_ok_sequence _ _ He) as [es Hes].
    destruct (entries_ok_sequence _ _ Hw) as [ws Hws].
    destruct lr as [|f lr].
    + rewrite last_run_section_skipped by now right. reflexivity.
    + now rewrite (last_run_section_report o _ es ws H) by (assumption || discriminate).
  - intros _. now rewrite last_run_section_skipped by now left.
Qed.

Lemma history_section_absent (o : dict) :
  dict_get o "executionHistory" = None ->
  history_section (JObj o) = ([], Returned tt).
Proof.
  intros H. unfold history_section. cbn [py_get]. unfold get_or. now rewrite H.
Qed.

Lemma history_section_short (o : dict) (h : list json) :
  dict_get o "executionHistory" = Some (JArr h) -> List.length h <= 1 ->
  history_section (JObj o) = ([], Returned tt).
Proof.
  intros H Hlen. unfold history_section. cbn [py_get]. unfold get_or. rewrite H.
  destruct h as [|e [|e' h]]; [reflexivity | reflexivity | simpl in Hlen; lia].
Qed.

Lemma history_section_recent (o e0 : dict) (e1 : json) (rest : list json) (ws : list dict) :
  dict_get o "executionHistory" = Some (JArr (JObj e0 :: e1 :: rest)) ->
  sequence_field e0 "warnings" ws ->
  history_section (JObj o)
  = (Printed (nl ++ "=== Recent Execution ===")
       :: Printed ("Status: " ++ py_str (get_or e0 "status" JNull))
       :: counted recent_warnings_header (List.length ws)
            (flat_map shown_recent_warning (enumerate 1 (firstn 5 ws))),
     Returned tt).
Proof.
  intros H Hw. unfold history_section. cbn [py_get]. unfold get_or at 1. rewrite H.
  run. cbn [truthy List.length Nat.ltb Nat.leb]. run.
  rewrite (get_or_sequence _ _ _ Hw), truthy_entries.
  destruct ws as [|w ws]; [reflexivity|].
  cbn [List.length Nat.eqb negb when counted]. run.
  rewrite length_map, (listing_returns _ shown_recent_warning)
    by apply recent_warning_entry_obj.
  reflexivity.
Qed.

Lemma history_section_returns (o : dict) :
  history_ok o = true -> snd (history_section (JObj o)) = Returned tt.
Proof.
  unfold history_ok. destruct (dict_get o "executionHistory") as [h|] eqn:H.
  - destruct h as [| | | | |h|]; try discriminate.
    destruct h as [|e0 [|e1 rest]].
    + intros _. rewrite (history_section_short o []) by (assumption || simpl; lia).
      reflexivity.
    + intros _. rewrite (history_section_short o [e0]) by (assumption || simpl; lia).
      reflexivity.
    + cbn [forallb]. intros Hok. apply andb_true_iff in Hok. destruct Hok as [H0 _].
      destruct e0 as [| | | | | |e0]; try discriminate. cbn [run_result_ok] in H0.
      apply andb_true_iff in H0. destruct H0 as [_ Hw].
      destruct (entries_ok_sequence _ _ Hw) as [ws Hws].
      now rewrite (history_section_recent o e0 e1 rest ws).
  - intros _. now rewrite history_section_absent.
Qed.

End StatusBlocks.

(** ** The status reporter *)

Section StatusReporter.
Import check_indexer_warnings.

Variables search_endpoint search_api_key : option string.
Variable http : request -> outcome response.
Variable indexer_name : string.

Local Abbreviation req := (status_request search_endpoint search_api_key indexer_name).
Local Abbreviation run :=
  (get_indexer_status_details search_endpoint search_api_key http indexer_name).

(** What follows the overall status on a 200 response. *)
Lemma run_on_payload (body_text : string) (o : dict) :
  http req = Returned {| status_code := 200; text := body_text; json_body := Some (JObj o) |} ->
  run = ((report_head req indexer_name o
          ++ fst (last_run_section (JObj o) ;; history_section (JObj o) ;;
                  ret (Some (JObj o))))%list,
         snd (last_run_section (JObj o) ;; history_section (JObj o) ;;
              ret (Some (JObj o)))).
Proof.
  intros H. unfold get_indexer_status_details, send. rewrite H.
  rewrite bind_returned. cbn [status_code json_body Z.eqb Pos.eqb response_json].
  run. reflexivity.
Qed.

Lemma run_on_failure (r : response) :
  http req = Returned r -> status_code r <> 200%Z ->
  run = ([Sent req; Printed ("Error: " ++ dec (status_code r)); Printed (text r)],
         Returned None).
Proof.
  intros H Hc. unfold get_indexer_status_details, send. rewrite H, bind_returned.
  apply Z.eqb_neq in Hc. rewrite Hc. reflexivity.
Qed.

(** C7. [get_status] returns null exactly when the status lookup is answered
    with a code other than 200, after printing the code and the raw body; on
    a 200 response whose payload follows the data model it returns the parsed
    payload itself, and whenever it returns on a 200 response the value is
    that payload, as parsed. *)
Theorem get_status_result (r : response) :
  http req = Returned r ->
  (status_code r <> 200%Z ->
   run = ([Sent req; Printed ("Error: " ++ dec (status_code r)); Printed (text r)],
          Returned None))
  /\ (snd run = Returned None <-> status_code r <> 200%Z)
  /\ (forall p, status_code r = 200%Z -> json_body r = Some p ->
       status_payload_ok p = true -> snd run = Returned (Some p))
  /\ (forall v, status_code r = 200%Z -> snd run = Returned v ->
       exists p, json_body r = Some p /\ v = Some p).
Proof.
  intros H.
  assert (H200 : forall v, status_code r = 200%Z -> snd run = Returned v ->
                 exists p, json_body r = Some p /\ v = Some p).
  { intros v Hc. unfold get_indexer_status_details, send.
    rewrite H, bind_returned, Hc. cbn [Z.eqb Pos.eqb snd].
    unfold response_json. destruct (json_body r) as [p|]; [|discriminate].
    rewrite bind_ret, bind_print. cbn [snd].
    destruct (call (py_get p "status" JNull)) as [t [s|e]] eqn:Hs; [|discriminate].
    rewrite bind_returned, bind_print. cbn [snd].
    destruct (last_run_section p) as [t1 [[]|e]]; [|discriminate].
    rewrite bind_returned. cbn [snd].
    destruct (history_section p) as [t2 [[]|e]]; [|discriminate].
    rewrite bind_returned. cbn [snd ret]. intros [= <-]. now exists p. }
  split; [now apply run_on_failure|]. split; [|split].
  - split.
    + intros Hn Hc. destruct (H200 None Hc Hn) as [p [_ Hp]]. discriminate.
    + intros Hc. now rewrite (run_on_failure r H Hc).
  - intros p Hc Hp Hok. destruct p as [| | | | | |o]; try discriminate.
    cbn [status_payload_ok] in Hok. apply andb_true_iff in Hok. destruct Hok as [Hl Hh].
    rewrite (run_on_payload (text r) o) by (destruct r; simpl in *; now subst).
    cbn [snd]. pose proof (last_run_section_returns o Hl) as Hlr.
    pose proof (history_section_returns o Hh) as Hhs.
    destruct (last_run_section (JObj o)) as [t1 r1]. simpl in Hlr. subst r1.
    rewrite bind_returned. cbn [snd].
    destruct (history_section (JObj o)) as [t2 r2]. simpl in Hhs. subst r2.
    reflexivity.
  - exact H200.
Qed.

(** C9. When [lastResult] is absent or an empty object, the whole Last Run
    section is skipped without failing: the report goes from the overall
    status straight to the execution history, whose outcome is the only one
    that can keep the payload from being returned. The history is still
    evaluated: with one entry at most (or none) the report ends after the
    overall status; with more than one entry the Recent Execution section is
    printed, with the status of the first entry and, when it has warnings,
    their count and the messages of the first 5 at most; in both cases, and
    for every history that follows the data model, the parsed payload is
    returned. *)
Theorem last_run_skipped (body_text : string) (o : dict) :
  http req = Returned {| status_code := 200; text := body_text; json_body := Some (JObj o) |} ->
  dict_get o "lastResult" = None \/ dict_get o "lastResult" = Some (JObj []) ->
  last_run_section (JObj o) = ([], Returned tt)
  /\ fst run = (report_head req indexer_name o ++ fst (history_section (JObj o)))%list
  /\ snd run = match snd (history_section (JObj o)) with
               | Returned _ => Returned (Some (JObj o))
               | Raised e => Raised e
               end
  /\ (history_ok o = true -> snd run = Returned (Some (JObj o)))
  /\ (dict_get o "executionHistory" = None
      \/ (exists h, dict_get o "executionHistory" = Some (JArr h) /\ List.length h <= 1) ->
      run = ([Sent req;
              Printed (nl ++ "=== Indexer: " ++ indexer_name ++ " ===");
              Printed ("Status: " ++ py_str (get_or o "status" JNull))],
             Returned (Some (JObj o))))
  /\ (forall e0 e1 rest ws,
        dict_get o "executionHistory" = Some (JArr (JObj e0 :: e1 :: rest)) ->
        sequence_field e0 "warnings" ws ->
        run = (Sent req
                 :: Printed (nl ++ "=== Indexer: " ++ indexer_name ++ " ===")
                 :: Printed ("Status: " ++ py_str (get_or o "status" JNull))
                 :: Printed (nl ++ "=== Recent Execution ===")
                 :: Printed ("Status: " ++ py_str (get_or e0 "status" JNull))
                 :: counted (fun n => ("Warnings in this run: " ++ dec_nat n)%string)
                      (List.length ws)
                      (flat_map shown_recent_warning (enumerate 1 (firstn 5 ws))),
               Returned (Some (JObj o)))).
Proof.
  intros H Hl. pose proof (last_run_section_skipped o Hl) as Hs.
  assert (E : run = ((report_head req indexer_name o ++ fst (history_section (JObj o)))%list,
                     match snd (history_section (JObj o)) with
                     | Returned _ => Returned (Some (JObj o))
                     | Raised e => Raised e
                     end)).
  { rewrite (run_on_payload body_text o H), Hs, bind_returned. cbn [app fst snd].
    destruct (history_section (JObj o)) as [t2 [[]|e]]; cbn [fst snd].
    - rewrite bind_returned. cbn [fst snd ret]. now rewrite app_nil_r.
    - reflexivity. }
  split; [assumption|]. split; [now rewrite E|]. split; [now rewrite E|].
  split; [|split].
  - intros Hh. rewrite E. cbn [snd]. now rewrite history_section_returns.
  - intros Hh. rewrite E.
    assert (Hn : history_section (JObj o) = ([], Returned tt)).
    { destruct Hh as [Hh | [h [Hh Hlen]]].
      - now apply history_section_absent.
      - now apply (history_section_short o h). }
    rewrite Hn. reflexivity.
  - intros e0 e1 rest ws Hh Hw. rewrite E.
    rewrite (history_section_recent o e0 e1 rest ws Hh Hw). reflexivity.
Qed.

(** C6. When the last run has a non-empty sequence of warnings, and the
    errors block before them does not raise, the report shows the warnings
    header with their count and then exactly the first min(N, 20) of the N
    warnings, each with its message, key, name and details (or their
    defaults) and a blank line; the execution history follows. *)
Theorem warnings_listing (body_text : string) (o lr : dict) (ws : list dict) :
  http req = Returned {| status_code := 200; text := body_text; json_body := Some (JObj o) |} ->
  dict_get o "lastResult" = Some (JObj lr) ->
  snd (errors_block (JObj lr)) = Returned tt ->
  dict_get lr "warnings" = Some (JArr (map JObj ws)) ->
  ws <> [] ->
  fst run = (report_head req indexer_name o
             ++ last_run_head lr
             ++ fst (errors_block (JObj lr))
             ++ Printed (nl ++ "  WARNINGS (" ++ dec_nat (List.length ws) ++ "):")
             :: flat_map shown_warning (enumerate 1 (firstn 20 ws))
             ++ fst (history_section (JObj o)))%list
  /\ List.length (enumerate 1 (firstn 20 ws)) = Nat.min 20 (List.length ws).
Proof.
  intros H Hl He Hw Hne. split.
  - rewrite (run_on_payload body_text o H). cbn [fst]. f_equal.
    rewrite (last_run_section_object o lr Hl) by (intros ->; discriminate).
    destruct (errors_block (JObj lr)) as [te re]. simpl in He. subst re.
    rewrite bind_returned, (warnings_block_report lr ws) by now left.
    destruct ws as [|w ws]; [congruence|]. cbn [List.length counted fst snd].
    rewrite bind_returned. cbn [fst].
    destruct (history_section (JObj o)) as [t2 [[]|e]]; cbn [fst].
    + rewrite bind_returned. cbn [fst ret].
      now rewrite app_nil_r, <- !app_assoc, <- app_comm_cons.
    + rewrite bind_raised. cbn [fst].
      now rewrite <- !app_assoc, <- app_comm_cons.
  - now rewrite enumerate_length, length_firstn.
Qed.

(** C10. The counts in the ERRORS and WARNINGS headers are the lengths of the
    whole sequences, while the entries listed under them are the first 10 and
    the first 20 at most. *)
Theorem header_counts_are_totals (body_text : string) (o lr : dict) (es ws : list dict) :
  http req = Returned {| status_code := 200; text := body_text; json_body := Some (JObj o) |} ->
  dict_get o "lastResult" = Some (JObj lr) ->
  lr <> [] ->
  sequence_field lr "errors" es ->
  sequence_field lr "warnings" ws ->
  fst run = (report_head req indexer_name o
             ++ last_run_head lr
             ++ counted (fun n => (nl ++ "  ERRORS (" ++ dec_nat n ++ "):")%string)
                  (List.length es)
                  (flat_map (shown_error_by "errorMessage") (enumerate 1 (firstn 10 es)))
             ++ counted (fun n => (nl ++ "  WARNINGS (" ++ dec_nat n ++ "):")%string)
                  (List.length ws)
                  (flat_map shown_warning (enumerate 1 (firstn 20 ws)))
             ++ fst (history_section (JObj o)))%list
  /\ List.length (enumerate 1 (firstn 10 es)) = Nat.min 10 (List.length es)
  /\ List.length (enumerate 1 (firstn 20 ws)) = Nat.min 20 (List.length ws).
Proof.
  intros H Hl Hne He Hw. split; [|split].
  - rewrite (run_on_payload body_text o H). cbn [fst]. f_equal.
    rewrite (last_run_section_report o lr es ws Hl Hne He Hw), bind_returned. cbn [fst].
    destruct (history_section (JObj o)) as [t2 [[]|e]]; cbn [fst].
    + rewrite bind_returned. cbn [fst ret]. now rewrite app_nil_r, <- !app_assoc.
    + rewrite bind_raised. cbn [fst]. now rewrite <- !app_assoc.
  - now rewrite enumerate_length, length_firstn.
  - now rewrite enumerate_length, length_firstn.
Qed.

(** C2, as amended. When the last run has a non-empty sequence of errors, the
    report shows the errors header with their count and then the first 10 at
    most, each with the value of its [errorMessage] field (or "Unknown
    error"), its key and its name (or "N/A"); the warnings block and the
    execution history follow. *)
Theorem errors_listing (body_text : string) (o lr : dict) (es : list dict) :
  http req = Returned {| status_code := 200; text := body_text; json_body := Some (JObj o) |} ->
  dict_get o "lastResult" = Some (JObj lr) ->
  dict_get lr "errors" = Some (JArr (map JObj es)) ->
  es <> [] ->
  fst run = (report_head req indexer_name o
             ++ last_run_head lr
             ++ Printed (nl ++ "  ERRORS (" ++ dec_nat (List.length es) ++ "):")
             :: flat_map (shown_error_by "errorMessage") (enumerate 1 (firstn 10 es))
             ++ fst (warnings_block (JObj lr) ;; history_section (JObj o)))%list
  /\ List.length (enumerate 1 (firstn 10 es)) = Nat.min 10 (List.length es).
Proof.
  intros H Hl He Hne. split.
  - rewrite (run_on_payload body_text o H). cbn [fst]. f_equal.
    rewrite (last_run_section_object o lr Hl) by (intros ->; discriminate).
    rewrite (errors_block_report lr es) by now left.
    destruct es as [|e es]; [congruence|]. cbn [List.length counted].
    rewrite bind_returned. cbn [fst snd].
    destruct (warnings_block (JObj lr)) as [tw [[]|ew]]; cbn [fst snd].
    + rewrite !bind_returned. cbn [fst].
      destruct (history_section (JObj o)) as [t2 [[]|e2]]; cbn [fst].
      * rewrite bind_returned. cbn [fst ret].
        now rewrite app_nil_r, <- !app_assoc, <- app_comm_cons.
      * rewrite bind_raised. cbn [fst]. now rewrite <- !app_assoc, <- app_comm_cons.
    + rewrite !bind_raised. cbn [fst]. reflexivity.
  - now rewrite enumerate_length, length_firstn.
Qed.

(** C1, as amended. When the Last Run section does not raise: with a history
    of one entry at most no Recent Execution section is printed; with more
    than one entry the section shows the status of the first entry of the
    history (index 0, the most recent run) and, when that entry has warnings,
    their count and the messages of the first 5 at most (or "Unknown"). *)
Theorem recent_execution_section (body_text : string) (o : dict) (h : list json) :
  http req = Returned {| status_code := 200; text := body_text; json_body := Some (JObj o) |} ->
  snd (last_run_section (JObj o)) = Returned tt ->
  dict_get o "executionHistory" = Some (JArr h) ->
  (List.length h <= 1 ->
   run = ((report_head req indexer_name o ++ fst (last_run_section (JObj o)))%list,
          Returned (Some (JObj o))))
  /\ (forall e0 e1 rest ws,
       h = JObj e0 :: e1 :: rest ->
       sequence_field e0 "warnings" ws ->
       run = ((report_head req indexer_name o
               ++ fst (last_run_section (JObj o))
               ++ Printed (nl ++ "=== Recent Execution ===")
               :: Printed ("Status: " ++ py_str (get_or e0 "status" JNull))
               :: counted (fun n => ("Warnings in this run: " ++ dec_nat n)%string)
                    (List.length ws)
                    (flat_map shown_recent_warning (enumerate 1 (firstn 5 ws))))%list,
              Returned (Some (JObj o)))).
Proof.
  intros H Hlr Hh. rewrite (run_on_payload body_text o H).
  destruct (last_run_section (JObj o)) as [t1 r1]. simpl in Hlr. subst r1.
  rewrite bind_returned. cbn [fst snd]. split.
  - intros Hlen. rewrite (history_section_short o h Hh Hlen), bind_returned.
    cbn [fst snd ret app]. now rewrite !app_nil_r.
  - intros e0 e1 rest ws -> Hw.
    rewrite (history_section_recent o e0 e1 rest ws Hh Hw), bind_returned.
    cbn [fst snd ret]. now rewrite app_nil_r.
Qed.

End StatusReporter.

(** ** The status reporter on sample payloads *)

Section StatusSamples.
Import check_indexer_warnings.

Local Abbreviation sample_run o :=
  (get_indexer_status_details sample_endpoint sample_key
     (always (ok_response (JObj o))) "ix").
Local Abbreviation sample_req := (status_request sample_endpoint sample_key "ix").

(** C1, refuted as stated. With a history of two runs, "success" then
    "transientFailure", the Recent Execution section shows the status of the
    first entry (index 0) and not that of the second-most-recent one
    (index 1). *)
Lemma recent_execution_is_not_second_entry :
  fst (sample_run payload_two_runs)
  = [Sent sample_req;
     Printed (nl ++ "=== Indexer: ix ===");
     Printed "Status: running";
     Printed (nl ++ "=== Recent Execution ===");
     Printed "Status: success"]
  /\ ~ recent_execution_of [("status", JStr "transientFailure")]
        (fst (sample_run payload_two_runs)).
Proof.
  split; [reflexivity|].
  intros [before [after H]]. vm_compute in H.
  do 5 (destruct before as [|? before]; [discriminate H|]; injection H as _ H).
  destruct before; discriminate H.
Qed.

(** C2, refuted as stated. An error entry with a [message] field and no
    [errorMessage] field is shown as "Unknown error": its [message] is not
    printed. *)
Lemma error_message_field_is_not_read :
  fst (sample_run payload_error_message)
  = [Sent sample_req;
     Printed (nl ++ "=== Indexer: ix ===");
     Printed "Status: None";
     Printed (nl ++ "Last Run:");
     Printed "  Status: None";
     Printed "  Items Processed: 0";
     Printed "  Items Failed: 0";
     Printed (nl ++ "  ERRORS (1):");
     Printed "    1. Unknown error";
     Printed "       Key: N/A";
     Printed "       Name: N/A"]
  /\ ~ In (Printed "    1. X") (fst (sample_run payload_error_message)).
Proof.
  split; [reflexivity|].
  vm_compute. intros H.
  repeat (destruct H as [H|H]; [discriminate H|]). exact H.
Qed.

(** A history of one run prints no section; a history of two runs whose first
    entry has 7 warnings prints its status, the count 7 and 5 messages. *)
Lemma recent_execution_section_witness :
  sample_run payload_one_run
  = ((report_head sample_req "ix" payload_one_run
      ++ fst (last_run_section (JObj payload_one_run)))%list,
     Returned (Some (JObj payload_one_run)))
  /\ sample_run payload_recent_warnings
     = ((report_head sample_req "ix" payload_recent_warnings
         ++ fst (last_run_section (JObj payload_recent_warnings))
         ++ Printed (nl ++ "=== Recent Execution ===")
         :: Printed ("Status: " ++ py_str (get_or run_with_recent_warnings "status" JNull))
         :: counted (fun n => ("Warnings in this run: " ++ dec_nat n)%string)
              (List.length (sample_warnings 1 7))
              (flat_map shown_recent_warning
                 (enumerate 1 (firstn 5 (sample_warnings 1 7)))))%list,
        Returned (Some (JObj payload_recent_warnings))).
Proof.
  split.
  - apply (proj1 (recent_execution_section sample_endpoint sample_key
                    (always (ok_response (JObj payload_one_run))) "ix"
                    "{...}" payload_one_run [JObj [("status", JStr "success")]]
                    eq_refl eq_refl eq_refl)).
    simpl. lia.
  - apply (proj2 (recent_execution_section sample_endpoint sample_key
                    (always (ok_response (JObj payload_recent_warnings))) "ix"
                    "{...}" payload_recent_warnings _ eq_refl eq_refl eq_refl)
             run_with_recent_warnings (JObj [("status", JStr "transientFailure")]) []).
    + reflexivity.
    + left. reflexivity.
Defined.

(** Two errors, one without [errorMessage]. *)
Lemma errors_listing_witness :
  fst (sample_run payload_errors)
  = (report_head sample_req "ix" payload_errors
     ++ last_run_head run_with_errors
     ++ Printed (nl ++ "  ERRORS (" ++ dec_nat (List.length sample_errors) ++ "):")
     :: flat_map (shown_error_by "errorMessage") (enumerate 1 (firstn 10 sample_errors))
     ++ fst (warnings_block (JObj run_with_errors) ;;
             history_section (JObj payload_errors)))%list
  /\ List.length (enumerate 1 (firstn 10 sample_errors)) = 2.
Proof.
  apply (errors_listing sample_endpoint sample_key
           (always (ok_response (JObj payload_errors))) "ix"
           "{...}" payload_errors run_with_errors sample_errors);
    [reflexivity | reflexivity | reflexivity | discriminate].
Defined.

(** With 15 warnings all 15 are listed; with 25, the first 20. *)
Lemma warnings_listing_witness :
  List.length (enumerate 1 (firstn 20 (sample_warnings 1 15))) = 15
  /\ List.length (enumerate 1 (firstn 20 (sample_warnings 1 25))) = 20
  /\ fst (sample_run (payload_warnings 25))
     = (report_head sample_req "ix" (payload_warnings 25)
        ++ last_run_head (run_with_warnings 25)
        ++ fst (errors_block (JObj (run_with_warnings 25)))
        ++ Printed (nl ++ "  WARNINGS ("
                    ++ dec_nat (List.length (sample_warnings 1 25)) ++ "):")
        :: flat_map shown_warning (enumerate 1 (firstn 20 (sample_warnings 1 25)))
        ++ fst (history_section (JObj (payload_warnings 25))))%list.
Proof.
  split; [|split].
  - apply (warnings_listing sample_endpoint sample_key
             (always (ok_response (JObj (payload_warnings 15)))) "ix"
             "{...}" (payload_warnings 15) (run_with_warnings 15) (sample_warnings 1 15));
      [reflexivity | reflexivity | reflexivity | reflexivity | discriminate].
  - apply (warnings_listing sample_endpoint sample_key
             (always (ok_response (JObj (payload_warnings 25)))) "ix"
             "{...}" (payload_warnings 25) (run_with_warnings 25) (sample_warnings 1 25));
      [reflexivity | reflexivity | reflexivity | reflexivity | discriminate].
  - apply (warnings_listing sample_endpoint sample_key
             (always (ok_response (JObj (payload_warnings 25)))) "ix"
             "{...}" (payload_warnings 25) (run_with_warnings 25) (sample_warnings 1 25));
      [reflexivity | reflexivity | reflexivity | reflexivity | discriminate].
Defined.

(** A 404 answer gives null; a full payload is returned as parsed. *)
Lemma get_status_result_witness :
  get_indexer_status_details sample_endpoint sample_key
    (always (failure_response 404 "Not Found")) "ix"
  = ([Sent sample_req; Printed "Error: 404"; Printed "Not Found"], Returned None)
  /\ snd (sample_run payload_errors_and_warnings)
     = Returned (Some (JObj payload_errors_and_warnings)).
Proof.
  split.
  - apply (proj1 (get_status_result sample_endpoint sample_key
                    (always (failure_response 404 "Not Found")) "ix"
                    (failure_response 404 "Not Found") eq_refl)).
    discriminate.
  - apply (proj1 (proj2 (proj2 (get_status_result sample_endpoint sample_key
                    (always (ok_response (JObj payload_errors_and_warnings))) "ix"
                    (ok_response (JObj payload_errors_and_warnings)) eq_refl))));
      reflexivity.
Defined.

(** Without [lastResult] and with two past runs, the Recent Execution section
    follows the overall status; so it does after an empty [lastResult], with
    the count of the 7 warnings of the first run and 5 of their messages;
    with an empty [lastResult] and no history the report ends after the
    overall status. *)
Lemma last_run_skipped_witness :
  sample_run payload_no_last_run
  = ([Sent sample_req;
      Printed (nl ++ "=== Indexer: ix ===");
      Printed "Status: running";
      Printed (nl ++ "=== Recent Execution ===");
      Printed "Status: success"],
     Returned (Some (JObj payload_no_last_run)))
  /\ sample_run payload_empty_last_run_with_history
     = ([Sent sample_req;
         Printed (nl ++ "=== Indexer: ix ===");
         Printed "Status: running";
         Printed (nl ++ "=== Recent Execution ===");
         Printed "Status: success";
         Printed "Warnings in this run: 7";
         Printed "  1. warning 1";
         Printed "  2. warning 2";
         Printed "  3. warning 3";
         Printed "  4. warning 4";
         Printed "  5. warning 5"],
        Returned (Some (JObj payload_empty_last_run_with_history)))
  /\ sample_run payload_empty_last_run
     = ([Sent sample_req;
         Printed (nl ++ "=== Indexer: ix ===");
         Printed "Status: running"],
        Returned (Some (JObj payload_empty_last_run))).
Proof.
  split; [|split].
  - exact (proj2 (proj2 (proj2 (proj2 (proj2
             (last_run_skipped sample_endpoint sample_key
                (always (ok_response (JObj payload_no_last_run))) "ix"
                "{...}" payload_no_last_run eq_refl (or_introl eq_refl))))))
             [("status", JStr "success")] (JObj [("status", JStr "transientFailure")])
             [] [] eq_refl (or_intror (conj eq_refl eq_refl))).
  - exact (proj2 (proj2 (proj2 (proj2 (proj2
             (last_run_skipped sample_endpoint sample_key
                (always (ok_response (JObj payload_empty_last_run_with_history))) "ix"
                "{...}" payload_empty_last_run_with_history eq_refl
                (or_intror eq_refl))))))
             run_with_recent_warnings (JObj [("status", JStr "transientFailure")])
             [] (sample_warnings 1 7) eq_refl (or_introl eq_refl)).
  - exact (proj1 (proj2 (proj2 (proj2 (proj2
             (last_run_skipped sample_endpoint sample_key
                (always (ok_response (JObj payload_empty_last_run))) "ix"
                "{...}" payload_empty_last_run eq_refl (or_intror eq_refl))))))
             (or_introl eq_refl)).
Defined.

(** With 2 errors and 25 warnings the headers carry 2 and 25, and 20
    warnings are listed. *)
Lemma header_counts_are_totals_witness :
  fst (sample_run payload_errors_and_warnings)
  = (report_head sample_req "ix" payload_errors_and_warnings
     ++ last_run_head run_with_errors_and_warnings
     ++ counted (fun n => (nl ++ "  ERRORS (" ++ dec_nat n ++ "):")%string) 2
          (flat_map (shown_error_by "errorMessage") (enumerate 1 (firstn 10 sample_errors)))
     ++ counted (fun n => (nl ++ "  WARNINGS (" ++ dec_nat n ++ "):")%string) 25
          (flat_map shown_warning (enumerate 1 (firstn 20 (sample_warnings 1 25))))
     ++ fst (history_section (JObj payload_errors_and_warnings)))%list
  /\ List.length (enumerate 1 (firstn 10 sample_errors)) = 2
  /\ List.length (enumerate 1 (firstn 20 (sample_warnings 1 25))) = 20.
Proof.
  apply (header_counts_are_totals sample_endpoint sample_key
           (always (ok_response (JObj payload_errors_and_warnings))) "ix"
           "{...}" payload_errors_and_warnings run_with_errors_and_warnings
           sample_errors (sample_warnings 1 25));
    [reflexivity | reflexivity | discriminate | left; reflexivity | left; reflexivity].
Defined.

End StatusSamples.

(** ** The index inspector *)

Lemma substring_prefix (n : nat) (s : string) :
  n <= String.length s ->
  exists rest, s = substring 0 n s ++ rest /\ String.length (substring 0 n s) = n.
Proof.
  revert s. induction n as [|n IH]; intros s Hn.
  - exists s. now destruct s.
  - destruct s as [|c s]; simpl in Hn; [lia|].
    destruct (IH s) as [rest [E L]]; [lia|].
    exists rest. simpl. split; [now rewrite <- E | now rewrite L].
Qed.

Section IndexInspector.
Import check_index.

Variables SEARCH_ENDPOINT SEARCH_API_KEY : option string.
Variable http : request -> outcome response.

Local Abbreviation stats_req := (stats_request SEARCH_ENDPOINT SEARCH_API_KEY).
Local Abbreviation search_req := (search_request SEARCH_ENDPOINT SEARCH_API_KEY).
Local Abbreviation vector_req := (vector_request SEARCH_ENDPOINT SEARCH_API_KEY).
Local Abbreviation stats := (stats_step SEARCH_ENDPOINT SEARCH_API_KEY http).
Local Abbreviation sample := (sample_step SEARCH_ENDPOINT SEARCH_API_KEY http).
Local Abbreviation vector := (vector_step SEARCH_ENDPOINT SEARCH_API_KEY http).
Local Abbreviation inspector := (script SEARCH_ENDPOINT SEARCH_API_KEY http).

Lemma field_entry_returns (kv : string * json) :
  field_entry kv = (fst (field_entry kv), Returned tt).
Proof.
  destruct kv as [key value]. unfold field_entry.
  now destruct (prefix "@" key).
Qed.

Lemma document_entry_fields (i : nat) (fields : dict) :
  document_entry (i, JObj fields)
  = (Printed ("Document " ++ dec_nat i ++ ":")
       :: Printed ("  Available fields: " ++ py_repr (JArr (map JStr (map fst fields))))
       :: Printed ""
       :: (flat_map (fun kv => fst (field_entry kv)) fields ++ [Printed ""])%list,
     Returned tt).
Proof.
  unfold document_entry. cbn [py_keys py_items]. run.
  rewrite (for_each_returns _ (fun kv => fst (field_entry kv)))
    by (intros; apply field_entry_returns).
  rewrite bind_returned. reflexivity.
Qed.

Lemma field_line_in_document (i : nat) (fields : dict) (kv : string * json) (line : string) :
  In kv fields -> field_entry kv = ([Printed line], Returned tt) ->
  In (Printed line) (fst (document_entry (i, JObj fields))).
Proof.
  intros Hin E. rewrite document_entry_fields. cbn [fst].
  do 3 right. apply in_or_app. left. apply in_flat_map.
  exists kv. split; [assumption|]. rewrite E. now left.
Qed.

(** C5. A string field whose name does not start with the metadata marker is
    shown as its first 200 characters followed by "..." when it is longer
    than 200 characters, and unchanged, with no ellipsis, otherwise. *)
Theorem string_field_display (i : nat) (fields : dict) (key s : string) :
  In (key, JStr s) fields ->
  prefix "@" key = false ->
  (200 < String.length s ->
   exists shown rest,
     s = shown ++ rest /\ String.length shown = 200
     /\ field_entry (key, JStr s)
        = ([Printed ("  " ++ key ++ ": " ++ shown ++ "...")], Returned tt)
     /\ In (Printed ("  " ++ key ++ ": " ++ shown ++ "..."))
          (fst (document_entry (i, JObj fields))))
  /\ (String.length s <= 200 ->
      field_entry (key, JStr s) = ([Printed ("  " ++ key ++ ": " ++ s)], Returned tt)
      /\ In (Printed ("  " ++ key ++ ": " ++ s))
           (fst (document_entry (i, JObj fields)))).
Proof.
  intros Hin Hkey. split; intros Hlen.
  - destruct (substring_prefix 200 s) as [rest [E L]]; [lia|].
    exists (substring 0 200 s), rest.
    assert (F : field_entry (key, JStr s)
                = ([Printed ("  " ++ key ++ ": " ++ substring 0 200 s ++ "...")],
                   Returned tt)).
    { unfold field_entry, display_value. rewrite Hkey.
      apply Nat.ltb_lt in Hlen. now rewrite Hlen. }
    repeat split; try assumption.
    now apply (field_line_in_document i fields (key, JStr s)).
  - assert (F : field_entry (key, JStr s)
                = ([Printed ("  " ++ key ++ ": " ++ s)], Returned tt)).
    { unfold field_entry, display_value. rewrite Hkey.
      assert (Hf : Nat.ltb 200 (String.length s) = false) by (apply Nat.ltb_ge; lia).
      now rewrite Hf. }
    split; [assumption|].
    now apply (field_line_in_document i fields (key, JStr s)).
Qed.

(** C8. On a 200 stats response, each of the three statistics lines shows the
    value of its field when the payload has it, and 0 when it does not. *)
Theorem stats_fields (body_text : string) (o : dict) :
  http stats_req
  = Returned {| status_code := 200; text := body_text; json_body := Some (JObj o) |} ->
  stats
  = ([Printed ("=== Index Statistics for idx-score-operatorsupport ===" ++ nl);
      Sent stats_req;
      Printed ("Document Count: " ++ field_or o "documentCount" "0");
      Printed ("Storage Size: " ++ field_or o "storageSize" "0" ++ " bytes");
      Printed ("Vector Index Size: " ++ field_or o "vectorIndexSize" "0" ++ " bytes");
      Printed ""],
     Returned tt).
Proof.
  intros H. unfold stats_step, send. rewrite bind_print. cbn [fst snd].
  rewrite H, bind_returned. cbn [status_code json_body Z.eqb Pos.eqb response_json].
  run. now rewrite !py_str_get_or_zero.
Qed.







Lemma sample_on_results (body_text : string) (o : dict) :
  http search_req
  = Returned {| status_code := 200; text := body_text; json_body := Some (JObj o) |} ->
  sample
  = (Printed ("=== Sample Documents ===" ++ nl) :: Sent search_req
       :: fst (n <- doc_count (JObj o) ;;
               print ("Total documents in search: " ++ py_str n ++ nl) ;;
               value <- call (py_get (JObj o) "value" (JArr [])) ;;
               docs <- call (py_iter value) ;;
               for_each (enumerate 1 docs) document_entry),
     snd (n <- doc_count (JObj o) ;;
          print ("Total documents in search: " ++ py_str n ++ nl) ;;
          value <- call (py_get (JObj o) "value" (JArr [])) ;;
          docs <- call (py_iter value) ;;
          for_each (enumerate 1 docs) document_entry)).
Proof.
  intros H. unfold sample_step, send. rewrite bind_print. cbn [fst snd].
  rewrite H, bind_returned. cbn [status_code json_body Z.eqb Pos.eqb response_json].
  rewrite bind_ret. reflexivity.
Qed.

(** C4, as amended. On a 200 search response, the total printed is the
    [@odata.count] field when it is present with a true value (a number other
    than zero); when the field is absent, or present with a false value such
    as 0 or null, it is the length of the [value] sequence (empty when
    absent). *)
Theorem total_count_or_length (body_text : string) (o : dict) :
  http search_req
  = Returned {| status_code := 200; text := body_text; json_body := Some (JObj o) |} ->
  (forall c,
     dict_get o "@odata.count" = Some c -> truthy c = true ->
     exists rest,
       fst sample
       = Printed ("=== Sample Documents ===" ++ nl) :: Sent search_req
           :: Printed ("Total documents in search: " ++ py_str c ++ nl) :: rest)
  /\ (forall docs,
        dict_get o "@odata.count" = None
        \/ (exists c, dict_get o "@odata.count" = Some c /\ truthy c = false) ->
        get_or o "value" (JArr []) = JArr docs ->
        exists rest,
          fst sample
          = Printed ("=== Sample Documents ===" ++ nl) :: Sent search_req
              :: Printed ("Total documents in search: "
                          ++ dec_nat (List.length docs) ++ nl) :: rest).
Proof.
  intros H. rewrite (sample_on_results body_text o H). cbn [fst]. split.
  - intros c Hc Ht. unfold doc_count. cbn [py_get]. unfold get_or at 1. rewrite Hc.
    rewrite bind_assoc, bind_call, Ht. cbv beta iota.
    rewrite bind_ret, bind_print. cbn [fst].
    eexists. reflexivity.
  - intros docs Hc Hv. unfold doc_count. cbn [py_get].
    assert (Hf : truthy (get_or o "@odata.count" JNull) = false).
    { unfold get_or. destruct Hc as [-> | [c [-> Hf]]]; [reflexivity | assumption]. }
    rewrite bind_assoc, bind_call, Hf. cbv beta iota. unfold get_or in Hv |- *.
    rewrite bind_assoc, bind_call, Hv. cbn [py_len].
    rewrite bind_assoc, bind_call, bind_ret, bind_print.
    cbn [fst]. eexists. reflexivity.
Qed.

End IndexInspector.

(** ** The index inspector on sample responses *)

Section InspectorSamples.
Import check_index.

Local Abbreviation service_ok_then search vector :=
  (inspector_service (ok_response (JObj sample_stats)) search vector).
Local Abbreviation busy := (failure_response 503 "busy").

(** C4, refuted as stated. With [@odata.count] present with value 0 and one
    document in [value], the total printed is 1, the length of the sequence,
    and not the reported 0. *)
Lemma zero_count_is_not_printed :
  dict_get results_zero_count "@odata.count" = Some (JInt 0)
  /\ fst (sample_step sample_endpoint sample_key
            (service_ok_then (ok_response (JObj results_zero_count)) busy))
     = [Printed ("=== Sample Documents ===" ++ nl);
        Sent (search_request sample_endpoint sample_key);
        Printed ("Total documents in search: 1" ++ nl);
        Printed "Document 1:";
        Printed "  Available fields: ['id']";
        Printed "";
        Printed "  id: 1";
        Printed ""]
  /\ ~ In (Printed ("Total documents in search: 0" ++ nl))
        (fst (sample_step sample_endpoint sample_key
                (service_ok_then (ok_response (JObj results_zero_count)) busy))).
Proof.
  split; [reflexivity|]. split; [reflexivity|].
  vm_compute. intros H.
  repeat (destruct H as [H|H]; [discriminate H|]). exact H.
Qed.

(** A reported count of 57 is printed; without the field, the 2 documents
    returned are counted. *)
Lemma total_count_or_length_witness :
  (exists rest,
     fst (sample_step sample_endpoint sample_key
            (service_ok_then (ok_response (JObj results_counted)) busy))
     = Printed ("=== Sample Documents ===" ++ nl)
         :: Sent (search_request sample_endpoint sample_key)
         :: Printed ("Total documents in search: " ++ py_str (JInt 57) ++ nl) :: rest)
  /\ (exists rest,
        fst (sample_step sample_endpoint sample_key
               (service_ok_then (ok_response (JObj results_uncounted)) busy))
        = Printed ("=== Sample Documents ===" ++ nl)
            :: Sent (search_request sample_endpoint sample_key)
            :: Printed ("Total documents in search: " ++ dec_nat 2 ++ nl) :: rest).
Proof.
  split.
  - apply (proj1 (total_count_or_length sample_endpoint sample_key
                    (service_ok_then (ok_response (JObj results_counted)) busy)
                    "{...}" results_counted eq_refl) (JInt 57));
      reflexivity.
  - apply (proj2 (total_count_or_length sample_endpoint sample_key
                    (service_ok_then (ok_response (JObj results_uncounted)) busy)
                    "{...}" results_uncounted eq_refl)
             [JObj [("id", JStr "1")]; JObj [("id", JStr "2")]]).
    + left. reflexivity.
    + reflexivity.
Defined.

(** A field of 250 characters is cut to 200; a short title is left alone. *)
Lemma string_field_display_witness :
  (exists shown rest,
     repeat_char "a" 250 = shown ++ rest /\ String.length shown = 200
     /\ field_entry ("content", JStr (repeat_char "a" 250))
        = ([Printed ("  " ++ "content" ++ ": " ++ shown ++ "...")], Returned tt)
     /\ In (Printed ("  " ++ "content" ++ ": " ++ shown ++ "..."))
          (fst (document_entry (1, JObj sample_document))))
  /\ (field_entry ("title", JStr "Guide") = ([Printed "  title: Guide"], Returned tt)
      /\ In (Printed "  title: Guide") (fst (document_entry (1, JObj sample_document)))).
Proof.
  split.
  - apply (proj1 (string_field_display 1 sample_document "content" (repeat_char "a" 250)
                    (or_intror (or_introl eq_refl)) eq_refl)).
    apply Nat.ltb_lt. reflexivity.
  - apply (proj2 (string_field_display 1 sample_document "title" "Guide"
                    (or_intror (or_intror (or_introl eq_refl))) eq_refl)).
    apply Nat.leb_le. reflexivity.
Defined.

(** The scenario of the specification, and a payload with two fields
    missing. *)
Lemma stats_fields_witness :
  stats_step sample_endpoint sample_key (service_ok_then busy busy)
  = ([Printed ("=== Index Statistics for idx-score-operatorsupport ===" ++ nl);
      Sent (stats_request sample_endpoint sample_key);
      Printed "Document Count: 42";
      Printed "Storage Size: 1000 bytes";
      Printed "Vector Index Size: 200 bytes";
      Printed ""],
     Returned tt)
  /\ stats_step sample_endpoint sample_key
       (inspector_service (ok_response (JObj partial_stats)) busy busy)
     = ([Printed ("=== Index Statistics for idx-score-operatorsupport ===" ++ nl);
         Sent (stats_request sample_endpoint sample_key);
         Printed "Document Count: 42";
         Printed "Storage Size: 0 bytes";
         Printed "Vector Index Size: 0 bytes";
         Printed ""],
        Returned tt).
Proof.
  split.
  - exact (stats_fields sample_endpoint sample_key (service_ok_then busy busy)
             "{...}" sample_stats eq_refl).
  - exact (stats_fields sample_endpoint sample_key
             (inspector_service (ok_response (JObj partial_stats)) busy busy)
             "{...}" partial_stats eq_refl).
Defined.


End InspectorSamples.

(** * Further properties *)

(** ** Slices *)

Lemma substring_prefix_min (n : nat) (s : string) :
  exists rest,
    s = substring 0 n s ++ rest
    /\ String.length (substring 0 n s) = Nat.min n (String.length s).
Proof.
  revert s. induction n as [|n IH]; intros s.
  - exists s. now destruct s.
  - destruct s as [|c s]; [now exists EmptyString|].
    destruct (IH s) as [rest [E L]]. exists rest. simpl.
    split; [now rewrite <- E | now rewrite L].
Qed.

(** ** Fields of a sample document *)

Section DocumentFields.
Import check_index.

Lemma length_append (s1 s2 : string) :
  String.length (s1 ++ s2) = String.length s1 + String.length s2.
Proof. induction s1; simpl; [reflexivity | now rewrite IHs1]. Qed.

(** X1. A field holding a non-empty sequence is shown as its item count,
    then the first 100 characters at most of the text of its first item,
    then "...", whether or not that text was cut. *)
Theorem sequence_field_display (key : string) (first : json) (more : list json) :
  prefix "@" key = false ->
  exists shown rest,
    py_str first = shown ++ rest
    /\ String.length shown = Nat.min 100 (String.length (py_str first))
    /\ field_entry (key, JArr (first :: more))
       = ([Printed ("  " ++ key ++ ": [" ++ dec_nat (S (List.length more))
                    ++ " items] " ++ shown ++ "...")],
          Returned tt).
Proof.
  intros Hkey. destruct (substring_prefix_min 100 (py_str first)) as [rest [E L]].
  exists (substring 0 100 (py_str first)), rest.
  repeat split; try assumption.
  unfold field_entry, display_value. now rewrite Hkey.
Qed.

(** X3. Apart from the non-empty sequences, whose item count is printed in
    full, no value is shown on more than 203 characters: 200 of content and
    the ellipsis. *)
Theorem display_value_bounded (value : json) :
  (forall first more, value <> JArr (first :: more)) ->
  String.length (display_value value) <= 203.
Proof.
  intros Hseq.
  assert (B : forall s, String.length (substring 0 200 s) <= 200).
  { intros s. destruct (substring_prefix_min 200 s) as [rest [_ L]]. rewrite L. lia. }
  destruct value; cbn [display_value]; try (etransitivity; [apply B | lia]).
  - destruct (Nat.ltb 200 (String.length s)) eqn:Hlen.
    + rewrite length_append. specialize (B s). simpl String.length at 2. lia.
    + apply Nat.ltb_ge in Hlen. lia.
  - destruct items as [|first more]; [|now destruct (Hseq first more)].
    etransitivity; [apply B | lia].
Qed.

Lemma field_entry_shown (kv : string * json) :
  field_entry kv
  = (if prefix "@" (fst kv) then [] else [shown_field kv], Returned tt).
Proof.
  destruct kv as [key value]. unfold field_entry, shown_field. cbn [fst snd].
  now destruct (prefix "@" key).
Qed.

Lemma field_lines_filter (fields : dict) :
  flat_map (fun kv => if prefix "@" (fst kv) then [] else [shown_field kv]) fields
  = map shown_field (filter (fun kv => negb (prefix "@" (fst kv))) fields).
Proof.
  induction fields as [|kv fields IH]; [reflexivity|]. simpl.
  destruct (prefix "@" (fst kv)); simpl; now rewrite IH.
Qed.

(** X2. The report of a document lists all its field names, metadata
    included, but prints a line only for the fields whose name does not start
    with "@", in the order of the document; it never fails on an object. *)
Theorem document_report (i : nat) (fields : dict) :
  document_entry (i, JObj fields) = (shown_document (i, fields), Returned tt).
Proof.
  unfold document_entry, shown_document. cbn [py_keys py_items]. run.
  rewrite (for_each_returns _
             (fun kv => if prefix "@" (fst kv) then [] else [shown_field kv]))
    by (intros; apply field_entry_shown).
  rewrite bind_returned, field_lines_filter. reflexivity.
Qed.

End DocumentFields.

(** ** Steps of the index inspector *)

Section InspectorSteps.
Import check_index.

Variables SEARCH_ENDPOINT SEARCH_API_KEY : option string.
Variable http : request -> outcome response.

Local Abbreviation stats_req := (stats_request SEARCH_ENDPOINT SEARCH_API_KEY).
Local Abbreviation search_req := (search_request SEARCH_ENDPOINT SEARCH_API_KEY).
Local Abbreviation vector_req := (vector_request SEARCH_ENDPOINT SEARCH_API_KEY).
Local Abbreviation stats := (stats_step SEARCH_ENDPOINT SEARCH_API_KEY http).
Local Abbreviation sample := (sample_step SEARCH_ENDPOINT SEARCH_API_KEY http).
Local Abbreviation vector := (vector_step SEARCH_ENDPOINT SEARCH_API_KEY http).
Local Abbreviation inspector := (script SEARCH_ENDPOINT SEARCH_API_KEY http).

Lemma result_entry_obj (i : nat) (d : dict) :
  result_entry (i, JObj d) = (shown_result (i, d), Returned tt).
Proof.
  unfold result_entry, shown_result. run. now rewrite !py_str_get_or.
Qed.

(** X10. On a 200 search response whose [value] is a sequence of documents,
    the sample step prints the total, then the report of every document of
    the sequence, numbered from 1, and returns. *)
Theorem sample_documents_listing (body_text : string) (o : dict) (docs : list dict) :
  http search_req
  = Returned {| status_code := 200; text := body_text; json_body := Some (JObj o) |} ->
  get_or o "value" (JArr []) = JArr (map JObj docs) ->
  sample
  = (Printed ("=== Sample Documents ===" ++ nl)
       :: Sent search_req
       :: Printed ("Total documents in search: "
                   ++ (if truthy (get_or o "@odata.count" JNull)
                       then py_str (get_or o "@odata.count" JNull)
                       else dec_nat (List.length docs))
                   ++ nl)
       :: flat_map shown_document (enumerate 1 docs),
     Returned tt).
Proof.
  intros H Hv. unfold sample_step, send. rewrite bind_print. cbn [fst snd].
  rewrite H, bind_returned. cbn [status_code json_body Z.eqb Pos.eqb response_json].
  rewrite bind_ret. unfold doc_count. cbn [py_get].
  rewrite bind_assoc, bind_call, Hv.
  assert (L : for_each (enumerate 1 (map JObj docs)) document_entry
              = (flat_map shown_document (enumerate 1 docs), Returned tt)).
  { rewrite enumerate_map. apply for_each_map_returns.
    intros [i d] _. apply document_report. }
  destruct (truthy (get_or o "@odata.count" JNull)); cbv beta iota.
  - rewrite (@bind_ret json unit). run. rewrite L. reflexivity.
  - rewrite bind_assoc, bind_call. cbn [py_len].
    rewrite bind_assoc, bind_call, (@bind_ret json unit). run.
    rewrite length_map, L. reflexivity.
Qed.

(** X4. On a 200 answer to the vector probe whose [value] is a sequence of
    results, the step prints their number, then each result with its score,
    title and source URL ("N/A" for a missing one) and a blank line, then the
    confirmation line, and returns. *)
Theorem vector_results_listing (body_text : string) (o : dict) (docs : list dict) :
  http vector_req
  = Returned {| status_code := 200; text := body_text; json_body := Some (JObj o) |} ->
  get_or o "value" (JArr []) = JArr (map JObj docs) ->
  vector
  = ((Printed (nl ++ "=== Vector Search Test ===" ++ nl)
        :: Sent vector_req
        :: Printed ("Vector search returned " ++ dec_nat (List.length docs)
                    ++ " results" ++ nl)
        :: flat_map shown_result (enumerate 1 docs)
        ++ [Printed "✅ Vector embeddings are working correctly!"])%list,
     Returned tt).
Proof.
  intros H Hv. unfold vector_step, send. rewrite bind_print. cbn [fst snd].
  rewrite H, bind_returned. cbn [status_code json_body Z.eqb Pos.eqb response_json].
  rewrite bind_ret. cbn [py_get]. rewrite Hv. run.
  rewrite enumerate_map.
  rewrite (for_each_map_returns _ _ shown_result)
    by (intros [i d] _; apply result_entry_obj).
  rewrite bind_returned, length_map. reflexivity.
Qed.

(** X14. A 200 answer to the stats fetch whose body is not JSON ends the run
    on the decoding error, after the banner alone: no statistics line, no
    further request, exit status 1. *)
Theorem stats_body_not_json (r : response) :
  http stats_req = Returned r ->
  status_code r = 200%Z ->
  json_body r = None ->
  inspector
  = ([Printed ("=== Index Statistics for idx-score-operatorsupport ===" ++ nl);
      Sent stats_req],
     Raised JSONDecodeError)
  /\ exit_status (snd inspector) = 1%Z.
Proof.
  intros H Hc Hj.
  assert (E : inspector
              = ([Printed ("=== Index Statistics for idx-score-operatorsupport ===" ++ nl);
                  Sent stats_req],
                 Raised JSONDecodeError)).
  { unfold script, stats_step, send. rewrite bind_print. cbn [fst snd].
    rewrite H, bind_returned, Hc. cbn [Z.eqb Pos.eqb]. unfold response_json.
    rewrite Hj. reflexivity. }
  now rewrite E.
Qed.

End InspectorSteps.

(** ** Requests sent *)

Lemma requests_of_app (t1 t2 : list event) :
  requests_of (t1 ++ t2) = (requests_of t1 ++ requests_of t2)%list.
Proof. apply flat_map_app. Qed.

Section Silence.
Context {A B : Type}.

Lemma silent_bind (m : M A) (k : A -> M B) :
  silent m -> (forall a, silent (k a)) -> silent (bind m k).
Proof.
  unfold silent. destruct m as [t [a|e]]; cbn [fst]; intros Hm Hk.
  - rewrite bind_returned. cbn [fst]. now rewrite requests_of_app, Hm, Hk.
  - assumption.
Qed.

Lemma silent_call (r : outcome A) : silent (call r).
Proof. reflexivity. Qed.

Lemma silent_ret (a : A) : silent (ret a).
Proof. reflexivity. Qed.

End Silence.

Lemma silent_for_each {A} (l : list A) (body : A -> M unit) :
  (forall a, silent (body a)) -> silent (for_each l body).
Proof.
  intros H. induction l as [|a l IH]; [reflexivity|].
  simpl. apply silent_bind; [apply H | intros _; apply IH].
Qed.

Lemma silent_print (s : string) : silent (print s).
Proof. reflexivity. Qed.

Lemma silent_when (b : bool) (m : M unit) : silent m -> silent (when b m).
Proof. now destruct b. Qed.

Lemma silent_response_json (r : response) : silent (response_json r).
Proof. unfold response_json. now destruct (json_body r). Qed.

(** A block made of primitives, printed lines, guards and loops. *)
Ltac silence :=
  repeat first
    [ apply silent_print | apply silent_call | apply silent_ret
    | apply silent_response_json
    | apply silent_when
    | apply silent_for_each; intros [? ?]
    | apply silent_bind; [|intro] ].

Section StatusRequests.
Import check_indexer_warnings.

Lemma silent_last_run_section (p : json) : silent (last_run_section p).
Proof. unfold last_run_section, errors_block, warnings_block, error_entry, warning_entry. silence. Qed.

Lemma silent_history_section (p : json) : silent (history_section p).
Proof. unfold history_section, recent_warning_entry. silence. Qed.

Variables search_endpoint search_api_key : option string.
Variable http : request -> outcome response.
Variable indexer_name : string.

Local Abbreviation req := (status_request search_endpoint search_api_key indexer_name).
Local Abbreviation run :=
  (get_indexer_status_details search_endpoint search_api_key http indexer_name).

Lemma status_run_requests : requests_of (fst run) = [req].
Proof.
  unfold get_indexer_status_details, send.
  destruct (http req) as [r|e]; [|reflexivity].
  rewrite bind_returned. cbn [fst].
  rewrite requests_of_app. cbn [requests_of flat_map app]. f_equal.
  change (silent (if (status_code r =? 200)%Z
                  then status_data <- response_json r ;;
                       print (nl ++ "=== Indexer: " ++ indexer_name ++ " ===") ;;
                       s <- call (py_get status_data "status" JNull) ;;
                       print ("Status: " ++ py_str s) ;;
                       last_run_section status_data ;;
                       history_section status_data ;;
                       ret (Some status_data)
                  else print ("Error: " ++ dec (status_code r)) ;;
                       print (text r) ;; ret None)).
  destruct (status_code r =? 200)%Z; silence;
    first [apply silent_last_run_section | apply silent_history_section].
Qed.

(** X7. Whatever the service answers and whatever the payload holds, a call
    of [get_status] sends exactly one request, the status lookup of the named
    indexer, and sends it before printing anything. *)
Theorem one_status_request :
  requests_of (fst run) = [req]
  /\ exists rest, fst run = Sent req :: rest.
Proof.
  split; [apply status_run_requests|].
  unfold get_indexer_status_details, send.
  destruct (http req) as [r|e].
  - rewrite bind_returned. cbn [fst]. now eexists.
  - rewrite bind_raised. cbn [fst]. now eexists.
Qed.

(** X5. When the lookup fails in transport, or a 200 answer has a body that
    is not JSON, [get_status] raises without having printed a line. *)
Theorem nothing_printed_without_payload :
  (forall e,
     http (status_request search_endpoint search_api_key indexer_name) = Raised e ->
     get_indexer_status_details search_endpoint search_api_key http indexer_name
     = ([Sent (status_request search_endpoint search_api_key indexer_name)], Raised e))
  /\ (forall r,
        http (status_request search_endpoint search_api_key indexer_name) = Returned r ->
        status_code r = 200%Z -> json_body r = None ->
        get_indexer_status_details search_endpoint search_api_key http indexer_name
        = ([Sent (status_request search_endpoint search_api_key indexer_name)],
           Raised JSONDecodeError)).
Proof.
  split.
  - intros e H. unfold get_indexer_status_details, send. now rewrite H.
  - intros r H Hc Hj. unfold get_indexer_status_details, send.
    rewrite H, bind_returned, Hc. cbn [Z.eqb Pos.eqb]. unfold response_json.
    now rewrite Hj.
Qed.

(** X6. A 200 answer whose JSON body is not an object (null, a number, a
    string, a list) makes [get_status] raise AttributeError right after the
    banner, before the status line. *)
Theorem payload_not_an_object (r : response) (p : json) :
  http req = Returned r ->
  status_code r = 200%Z ->
  json_body r = Some p ->
  is_object p = false ->
  run = ([Sent req; Printed (nl ++ "=== Indexer: " ++ indexer_name ++ " ===")],
         Raised AttributeError).
Proof.
  intros H Hc Hj Hp. unfold get_indexer_status_details, send.
  rewrite H, bind_returned, Hc. cbn [Z.eqb Pos.eqb]. unfold response_json.
  rewrite Hj, bind_ret, bind_print.
  destruct p; try discriminate; reflexivity.
Qed.

End StatusRequests.

(** X11. Run as a program, the reporter queries the indexer named by the
    first command-line argument, and the indexer "pp-dev-navi-bki-code-ix"
    when there is none; later arguments are ignored. Its one request is a GET
    of the status URL of that indexer, with the two headers. *)
Theorem main_queries_named_indexer
    (search_endpoint search_api_key : option string)
    (http : request -> outcome response) (argv : list string) :
  check_indexer_warnings.main search_endpoint search_api_key http argv
  = check_indexer_warnings.get_indexer_status_details search_endpoint search_api_key http
      (nth 1 argv "pp-dev-navi-bki-code-ix")
  /\ requests_of (fst (check_indexer_warnings.main search_endpoint search_api_key http argv))
     = [{| req_method := GET;
           req_url := fmt_setting search_endpoint ++ "/indexers/"
                      ++ nth 1 argv "pp-dev-navi-bki-code-ix"
                      ++ "/status?api-version=2024-07-01";
           req_headers := [("Content-Type", Some "application/json");
                           ("api-key", search_api_key)];
           req_json := None |}].
Proof.
  assert (E : check_indexer_warnings.main search_endpoint search_api_key http argv
              = check_indexer_warnings.get_indexer_status_details
                  search_endpoint search_api_key http
                  (nth 1 argv "pp-dev-navi-bki-code-ix")).
  { unfold check_indexer_warnings.main.
    destruct argv as [|script [|name rest]]; reflexivity. }
  split; [exact E|]. rewrite E. apply status_run_requests.
Qed.

Section InspectorRequests.
Import check_index.

Variables SEARCH_ENDPOINT SEARCH_API_KEY : option string.
Variable http : request -> outcome response.

Local Abbreviation stats_req := (stats_request SEARCH_ENDPOINT SEARCH_API_KEY).
Local Abbreviation search_req := (search_request SEARCH_ENDPOINT SEARCH_API_KEY).
Local Abbreviation vector_req := (vector_request SEARCH_ENDPOINT SEARCH_API_KEY).
Local Abbreviation stats := (stats_step SEARCH_ENDPOINT SEARCH_API_KEY http).
Local Abbreviation sample := (sample_step SEARCH_ENDPOINT SEARCH_API_KEY http).
Local Abbreviation vector := (vector_step SEARCH_ENDPOINT SEARCH_API_KEY http).
Local Abbreviation inspector := (script SEARCH_ENDPOINT SEARCH_API_KEY http).

Lemma silent_field_entry (kv : string * json) : silent (field_entry kv).
Proof. destruct kv as [key value]. unfold field_entry. destruct (prefix "@" key); silence. Qed.

Lemma silent_document_entry (ix : nat * json) : silent (document_entry ix).
Proof.
  destruct ix as [i doc]. unfold document_entry.
  repeat first [ apply silent_print | apply silent_call
               | apply silent_for_each; intro; apply silent_field_entry
               | apply silent_bind; [|intro] ].
Qed.

Lemma silent_doc_count (results : json) : silent (doc_count results).
Proof.
  unfold doc_count. apply silent_bind; [apply silent_call|]. intros count.
  destruct (truthy count); silence.
Qed.

(** A step: a banner, one request, then a silent handling of the answer. *)
Lemma step_requests {A} (banner : string) (r : request) (k : response -> M A) :
  (forall x, silent (k x)) ->
  requests_of (fst (print banner ;; x <- send http r ;; k x)) = [r].
Proof.
  intros Hk. rewrite bind_print. cbn [fst requests_of flat_map app].
  unfold send. destruct (http r) as [x|e].
  - rewrite bind_returned. cbn [fst]. change ([Sent r] ++ fst (k x))%list
      with (Sent r :: fst (k x)). cbn [flat_map app]. f_equal. apply Hk.
  - reflexivity.
Qed.

Lemma stats_requests : requests_of (fst stats) = [stats_req].
Proof.
  apply step_requests. intros x. destruct (status_code x =? 200)%Z; silence.
Qed.

Lemma sample_requests : requests_of (fst sample) = [search_req].
Proof.
  apply step_requests. intros x. destruct (status_code x =? 200)%Z.
  - apply silent_bind; [apply silent_response_json|]. intros results.
    apply silent_bind; [apply silent_doc_count|]. intros n.
    apply silent_bind; [apply silent_print|]. intros _.
    apply silent_bind; [apply silent_call|]. intros value.
    apply silent_bind; [apply silent_call|]. intros docs.
    apply silent_for_each. apply silent_document_entry.
  - silence.
Qed.

Lemma vector_requests : requests_of (fst vector) = [vector_req].
Proof.
  apply step_requests. intros x. unfold result_entry.
  destruct (status_code x =? 200)%Z; silence.
Qed.

(** X8. The inspector sends at most three requests, always in the same
    order: the stats fetch; the sample search only if the stats step
    returned; the vector probe only if the sample step returned too. Its
    outcome is that of the first step that raised, or of the vector step. *)
Theorem inspector_requests :
  requests_of (fst inspector)
  = stats_req
      :: match snd stats with
         | Raised _ => []
         | Returned _ =>
             search_req
               :: match snd sample with
                  | Raised _ => []
                  | Returned _ => [vector_req]
                  end
         end
  /\ snd inspector
     = match snd stats with
       | Raised e => Raised e
       | Returned _ =>
           match snd sample with
           | Raised e => Raised e
           | Returned _ => snd vector
           end
       end.
Proof.
  pose proof stats_requests as H1. pose proof sample_requests as H2.
  pose proof vector_requests as H3.
  unfold script. destruct stats as [t1 [[]|e1]]; cbn [fst snd] in *.
  - rewrite bind_returned. cbn [fst snd].
    destruct sample as [t2 [[]|e2]]; cbn [fst snd] in *.
    + rewrite bind_returned. cbn [fst snd].
      rewrite !requests_of_app, H1, H2, H3. now split.
    + rewrite bind_raised. cbn [fst snd].
      rewrite !requests_of_app, H1, H2. now split.
  - rewrite bind_raised. cbn [fst snd]. rewrite H1. now split.
Qed.

End InspectorRequests.

(** ** Size of the status report *)

Lemma flat_map_length_const {A B} (f : A -> list B) (k : nat) (l : list A) :
  (forall a, List.length (f a) = k) ->
  List.length (flat_map f l) = k * List.length l.
Proof.
  intros H. induction l as [|a l IH]; simpl; [lia|].
  rewrite length_app, H, IH. lia.
Qed.

Lemma counted_listing_length {A} (header : nat -> string) (f : nat * A -> list event)
    (k cap : nat) (l : list A) :
  (forall a, List.length (f a) = k) ->
  List.length (counted header (List.length l) (flat_map f (enumerate 1 (firstn cap l))))
  <= 1 + k * cap.
Proof.
  intros H. destruct l as [|a l]; [simpl; lia|].
  cbn [List.length counted]. rewrite (flat_map_length_const f k) by assumption.
  rewrite enumerate_length, length_firstn. nia.
Qed.

Section ReportSize.
Import check_indexer_warnings.

Lemma last_run_section_length (o : dict) :
  match dict_get o "lastResult" with
  | None => true
  | Some lr => run_result_ok lr
  end = true ->
  List.length (fst (last_run_section (JObj o))) <= 136.
Proof.
  destruct (dict_get o "lastResult") as [lr|] eqn:H.
  - destruct lr as [| | | | | |lr]; try discriminate. cbn [run_result_ok].
    intros Hok. apply andb_true_iff in Hok. destruct Hok as [He Hw].
    destruct (entries_ok_sequence _ _ He) as [es Hes].
    destruct (entries_ok_sequence _ _ Hw) as [ws Hws].
    destruct lr as [|f lr].
    + rewrite last_run_section_skipped by now right. simpl. lia.
    + rewrite (last_run_section_report o _ es ws H) by (assumption || discriminate).
      cbn [fst]. rewrite !length_app.
      pose proof (counted_listing_length errors_header
                    (shown_error_by "errorMessage") 3 10 es) as Be.
      pose proof (counted_listing_length warnings_header shown_warning 5 20 ws) as Bw.
      specialize (Be (fun a => match a with (_, _) => eq_refl end)).
      specialize (Bw (fun a => match a with (_, _) => eq_refl end)).
      cbn [last_run_head List.length]. lia.
  - intros _. rewrite last_run_section_skipped by now left. simpl. lia.
Qed.

Lemma history_section_length (o : dict) :
  history_ok o = true ->
  List.length (fst (history_section (JObj o))) <= 8.
Proof.
  unfold history_ok. destruct (dict_get o "executionHistory") as [h|] eqn:H.
  - destruct h as [| | | | |h|]; try discriminate.
    destruct h as [|e0 [|e1 rest]].
    + intros _. rewrite (history_section_short o []) by (assumption || simpl; lia).
      simpl. lia.
    + intros _. rewrite (history_section_short o [e0]) by (assumption || simpl; lia).
      simpl. lia.
    + cbn [forallb]. intros Hok. apply andb_true_iff in Hok. destruct Hok as [H0 _].
      destruct e0 as [| | | | | |e0]; try discriminate. cbn [run_result_ok] in H0.
      apply andb_true_iff in H0. destruct H0 as [_ Hw].
      destruct (entries_ok_sequence _ _ Hw) as [ws Hws].
      rewrite (history_section_recent o e0 e1 rest ws) by assumption.
      cbn [fst List.length].
      pose proof (counted_listing_length recent_warnings_header
                    shown_recent_warning 1 5 ws) as Bw.
      specialize (Bw (fun a => match a with (_, _) => eq_refl end)). lia.
  - intros _. rewrite history_section_absent by assumption. simpl. lia.
Qed.

Lemma trace_length (t : list event) :
  List.length t = List.length (requests_of t) + List.length (printed_of t).
Proof.
  induction t as [|e t IH]; [reflexivity|].
  destruct e; simpl; rewrite IH; lia.
Qed.

(** X9. However many errors, warnings and past runs a payload that follows
    the data model holds, the run is bounded: one request and at most 146
    calls of [print] (2 for the heading, 136 for the last run, 8 for the
    history), 147 events in all. The bound counts calls, not lines of output:
    a printed text may hold line breaks. *)
Theorem report_is_bounded
    (search_endpoint search_api_key : option string)
    (http : request -> outcome response) (indexer_name body_text : string) (o : dict) :
  http (status_request search_endpoint search_api_key indexer_name)
  = Returned {| status_code := 200; text := body_text; json_body := Some (JObj o) |} ->
  status_payload_ok (JObj o) = true ->
  requests_of (fst (get_indexer_status_details search_endpoint search_api_key http
                      indexer_name))
  = [status_request search_endpoint search_api_key indexer_name]
  /\ List.length (printed_of (fst (get_indexer_status_details search_endpoint
                                     search_api_key http indexer_name))) <= 146
  /\ List.length (fst (get_indexer_status_details search_endpoint search_api_key http
                         indexer_name)) <= 147.
Proof.
  intros H Hok.
  assert (B : List.length (fst (get_indexer_status_details search_endpoint
                                  search_api_key http indexer_name)) <= 147).
  { cbn [status_payload_ok] in Hok.
    apply andb_true_iff in Hok. destruct Hok as [Hl Hh].
    rewrite (run_on_payload _ _ _ _ body_text o H). cbn [fst].
    pose proof (last_run_section_length o Hl) as B1.
    pose proof (history_section_length o Hh) as B2.
    pose proof (last_run_section_returns o Hl) as R1.
    pose proof (history_section_returns o Hh) as R2.
    destruct (last_run_section (JObj o)) as [t1 r1]. cbn [fst snd] in *. subst r1.
    destruct (history_section (JObj o)) as [t2 r2]. cbn [fst snd] in *. subst r2.
    rewrite !bind_returned. cbn [fst ret].
    rewrite !length_app. cbn [report_head List.length]. lia. }
  pose proof (status_run_requests search_endpoint search_api_key http indexer_name) as R.
  split; [exact R|]. split; [|exact B].
  rewrite trace_length, R in B. simpl in B. lia.
Qed.

(** ** Malformed entries *)

Lemma warning_entry_not_object (i : nat) (bad : json) :
  is_object bad = false -> warning_entry (i, bad) = ([], Raised AttributeError).
Proof. destruct bad; try discriminate; reflexivity. Qed.

Lemma firstn_covers {A} (n : nat) (l1 l2 : list A) :
  n <= List.length l1 -> firstn n (l1 ++ l2) = firstn n l1.
Proof.
  intros Hn. rewrite firstn_app.
  replace (n - List.length l1) with 0 by lia. simpl. apply app_nil_r.
Qed.

Lemma enumerate_app {A} (i : nat) (l1 l2 : list A) :
  enumerate i (l1 ++ l2) = (enumerate i l1 ++ enumerate (i + List.length l1) l2)%list.
Proof.
  revert i. induction l1 as [|a l1 IH]; intros i; simpl.
  - now rewrite Nat.add_0_r.
  - rewrite IH. now rewrite Nat.add_succ_r.
Qed.

Lemma for_each_app {A} (l1 l2 : list A) (body : A -> M unit) :
  for_each (l1 ++ l2) body = (for_each l1 body ;; for_each l2 body).
Proof.
  induction l1 as [|a l1 IH]; cbn [app for_each].
  - now rewrite bind_ret.
  - now rewrite IH, bind_assoc.
Qed.

(** X12. Only the first 20 warnings are read: with 20 well-formed warnings
    or more in front, whatever follows them in the sequence, well formed or
    not, is counted in the header and otherwise ignored, and the block
    returns. *)
Theorem entries_after_the_cap_are_not_read (lr : dict) (good : list dict) (junk : list json) :
  dict_get lr "warnings" = Some (JArr (map JObj good ++ junk)%list) ->
  20 <= List.length good ->
  warnings_block (JObj lr)
  = (Printed (nl ++ "  WARNINGS ("
              ++ dec_nat (List.length good + List.length junk) ++ "):")
       :: flat_map shown_warning (enumerate 1 (firstn 20 good)),
     Returned tt).
Proof.
  intros H Hlen. unfold warnings_block. cbn [py_get]. unfold get_or. rewrite H.
  rewrite bind_call.
  assert (Ht : truthy (JArr (map JObj good ++ junk)%list) = true)
    by (destruct good; [simpl in Hlen; lia | reflexivity]).
  rewrite Ht. cbn [when py_len]. run.
  rewrite length_app, length_map.
  rewrite firstn_covers. 2:{ rewrite length_map. exact Hlen. }
  rewrite (listing_returns _ shown_warning) by apply warning_entry_obj.
  reflexivity.
Qed.

(** X13. A warning that is not an object, met among the first 20, stops the
    report with AttributeError: the header, with the full count, and the
    warnings before it have been printed, nothing after. *)
Theorem malformed_warning_raises (lr : dict) (good : list dict) (bad : json)
    (rest : list json) :
  dict_get lr "warnings" = Some (JArr (map JObj good ++ bad :: rest)%list) ->
  is_object bad = false ->
  List.length good < 20 ->
  warnings_block (JObj lr)
  = (Printed (nl ++ "  WARNINGS ("
              ++ dec_nat (List.length good + S (List.length rest)) ++ "):")
       :: flat_map shown_warning (enumerate 1 good),
     Raised AttributeError).
Proof.
  intros H Hbad Hlen. unfold warnings_block. cbn [py_get]. unfold get_or. rewrite H.
  rewrite bind_call.
  assert (Ht : truthy (JArr (map JObj good ++ bad :: rest)%list) = true)
    by (destruct good; reflexivity).
  rewrite Ht. cbn [when py_len]. run.
  rewrite length_app, length_map. cbn [List.length].
  unfold dict in *.
  rewrite firstn_app, length_map, firstn_all2 by (rewrite length_map; lia).
  replace (20 - List.length good) with (S (19 - List.length good)) by lia.
  cbn [firstn]. rewrite enumerate_app, for_each_app.
  rewrite enumerate_map.
  rewrite (for_each_map_returns _ _ shown_warning)
    by (intros [i w] _; apply warning_entry_obj).
  rewrite bind_returned. cbn [enumerate for_each].
  rewrite (warning_entry_not_object _ bad Hbad), bind_raised. cbn [fst snd].
  now rewrite app_nil_r.
Qed.

End ReportSize.

(** ** Further properties on sample data *)

Section FurtherSamples.
Import check_indexer_warnings check_index.

Local Abbreviation busy := (failure_response 503 "busy").
Local Abbreviation sample_req := (status_request sample_endpoint sample_key "ix").

(** A sequence of two short tags. *)
Lemma sequence_field_display_witness :
  exists shown rest,
    py_str (JStr "x") = shown ++ rest
    /\ String.length shown = Nat.min 100 (String.length (py_str (JStr "x")))
    /\ field_entry ("tags", JArr [JStr "x"; JStr "y"])
       = ([Printed ("  " ++ "tags" ++ ": [" ++ dec_nat 2 ++ " items] " ++ shown ++ "...")],
          Returned tt).
Proof.
  apply (sequence_field_display "tags" (JStr "x") [JStr "y"] eq_refl).
Defined.

(** A string of 250 characters is shown on 203. *)
Lemma display_value_bounded_witness :
  String.length (display_value (JStr (repeat_char "a" 250))) <= 203.
Proof.
  apply (display_value_bounded (JStr (repeat_char "a" 250))).
  intros first more. discriminate.
Defined.

(** Two documents, the first with a metadata field. *)
Lemma sample_documents_listing_witness :
  sample_step sample_endpoint sample_key
    (inspector_service (ok_response (JObj sample_stats))
       (ok_response (JObj results_documents)) busy)
  = (Printed ("=== Sample Documents ===" ++ nl)
       :: Sent (search_request sample_endpoint sample_key)
       :: Printed ("Total documents in search: "
                   ++ (if truthy (get_or results_documents "@odata.count" JNull)
                       then py_str (get_or results_documents "@odata.count" JNull)
                       else dec_nat (List.length sample_documents))
                   ++ nl)
       :: flat_map shown_document (enumerate 1 sample_documents),
     Returned tt).
Proof.
  apply (sample_documents_listing sample_endpoint sample_key
           (inspector_service (ok_response (JObj sample_stats))
              (ok_response (JObj results_documents)) busy)
           "{...}" results_documents sample_documents eq_refl eq_refl).
Defined.

(** Two results, the second without score or source URL. *)
Lemma vector_results_listing_witness :
  vector_step sample_endpoint sample_key
    (inspector_service (ok_response (JObj sample_stats)) busy
       (ok_response (JObj vector_results)))
  = ((Printed (nl ++ "=== Vector Search Test ===" ++ nl)
        :: Sent (vector_request sample_endpoint sample_key)
        :: Printed ("Vector search returned " ++ dec_nat (List.length sample_results)
                    ++ " results" ++ nl)
        :: flat_map shown_result (enumerate 1 sample_results)
        ++ [Printed "✅ Vector embeddings are working correctly!"])%list,
     Returned tt).
Proof.
  apply (vector_results_listing sample_endpoint sample_key
           (inspector_service (ok_response (JObj sample_stats)) busy
              (ok_response (JObj vector_results)))
           "{...}" vector_results sample_results eq_refl eq_refl).
Defined.

(** A gateway page served with code 200 in place of the statistics. *)
Lemma stats_body_not_json_witness :
  script sample_endpoint sample_key (always not_json_response)
  = ([Printed ("=== Index Statistics for idx-score-operatorsupport ===" ++ nl);
      Sent (stats_request sample_endpoint sample_key)],
     Raised JSONDecodeError)
  /\ exit_status (snd (script sample_endpoint sample_key (always not_json_response)))
     = 1%Z.
Proof.
  apply (stats_body_not_json sample_endpoint sample_key (always not_json_response)
           not_json_response eq_refl eq_refl eq_refl).
Defined.

(** A transport failure, and a gateway page served with code 200. *)
Lemma nothing_printed_without_payload_witness :
  get_indexer_status_details sample_endpoint sample_key transport_failure "ix"
  = ([Sent sample_req], Raised RequestException)
  /\ get_indexer_status_details sample_endpoint sample_key (always not_json_response) "ix"
     = ([Sent sample_req], Raised JSONDecodeError).
Proof.
  split.
  - apply (proj1 (nothing_printed_without_payload sample_endpoint sample_key
                    transport_failure "ix") RequestException eq_refl).
  - apply (proj2 (nothing_printed_without_payload sample_endpoint sample_key
                    (always not_json_response) "ix")
             not_json_response eq_refl eq_refl eq_refl).
Defined.

(** A payload that is a list. *)
Lemma payload_not_an_object_witness :
  get_indexer_status_details sample_endpoint sample_key
    (always (ok_response (JArr []))) "ix"
  = ([Sent sample_req; Printed (nl ++ "=== Indexer: " ++ "ix" ++ " ===")],
     Raised AttributeError).
Proof.
  apply (payload_not_an_object sample_endpoint sample_key
           (always (ok_response (JArr []))) "ix"
           (ok_response (JArr [])) (JArr []) eq_refl eq_refl eq_refl eq_refl).
Defined.

(** The payload with 2 errors and 25 warnings. *)
Lemma report_is_bounded_witness :
  requests_of (fst (get_indexer_status_details sample_endpoint sample_key
                      (always (ok_response (JObj payload_errors_and_warnings))) "ix"))
  = [status_request sample_endpoint sample_key "ix"]
  /\ List.length (printed_of (fst (get_indexer_status_details sample_endpoint sample_key
                       (always (ok_response (JObj payload_errors_and_warnings))) "ix")))
     <= 146
  /\ List.length (fst (get_indexer_status_details sample_endpoint sample_key
                         (always (ok_response (JObj payload_errors_and_warnings))) "ix"))
     <= 147.
Proof.
  apply (report_is_bounded sample_endpoint sample_key
           (always (ok_response (JObj payload_errors_and_warnings))) "ix"
           "{...}" payload_errors_and_warnings eq_refl eq_refl).
Defined.

(** 20 warnings followed by a corrupt entry. *)
Lemma entries_after_the_cap_are_not_read_witness :
  warnings_block (JObj (run_with_malformed_warning 20))
  = (Printed (nl ++ "  WARNINGS ("
              ++ dec_nat (List.length (sample_warnings 1 20) + 1) ++ "):")
       :: flat_map shown_warning (enumerate 1 (firstn 20 (sample_warnings 1 20))),
     Returned tt).
Proof.
  apply (entries_after_the_cap_are_not_read (run_with_malformed_warning 20)
           (sample_warnings 1 20) [JStr "corrupt"] eq_refl).
  apply Nat.leb_le. reflexivity.
Defined.

(** 3 warnings followed by a corrupt entry. *)
Lemma malformed_warning_raises_witness :
  warnings_block (JObj (run_with_malformed_warning 3))
  = (Printed (nl ++ "  WARNINGS ("
              ++ dec_nat (List.length (sample_warnings 1 3) + 1) ++ "):")
       :: flat_map shown_warning (enumerate 1 (sample_warnings 1 3)),
     Raised AttributeError).
Proof.
  apply (malformed_warning_raises (run_with_malformed_warning 3)
           (sample_warnings 1 3) (JStr "corrupt") [] eq_refl eq_refl).
  apply Nat.ltb_lt. reflexivity.
Defined.

End FurtherSamples.
